(** * libfetch: install state machine and fetch pipeline

    Shallow embedding of [src/install.rs], [src/downloader.rs] and
    [src/api.rs].

    - Rust [Result<T, String>] is [res T].
    - The async code is a state-and-error monad [M] over a state [St]
      holding the filesystem, an event log of every network request,
      sleep and filesystem mutation, and counters indexing the
      responses of the network.
    - The network (reqwest), the archive decoders (flate2, tar, zip)
      and the GitHub release JSON are parameters collected in a
      [World]: every theorem holds for every world.
    - Progress callbacks only report (floating point timing) and are
      not modelled. *)

From Stdlib Require Import String Ascii List Bool Arith Lia ZArith.
Import ListNotations.
Open Scope string_scope.
Set Warnings "-abstract-large-number".

(* ------------------------------------------------------------------ *)
(** ** Results *)

Inductive res (A : Type) : Type :=
| Ok (a : A)
| Err (e : string).
Arguments Ok {A} a.
Arguments Err {A} e.

(* ------------------------------------------------------------------ *)
(** ** String helpers *)

Module Str.

Definition dq : ascii := "034"%char.
Definition bslash : ascii := "092"%char.
Definition slash : ascii := "/"%char.

Fixpoint rev (s : string) : string :=
  match s with
  | EmptyString => EmptyString
  | String c s' => rev s' ++ String c EmptyString
  end.

(** [str::ends_with] *)
Definition ends_with (suffix s : string) : bool :=
  String.prefix (rev suffix) (rev s).

(** The pieces of [s.split(sep)], in order (never empty). *)
Fixpoint split (sep : ascii) (s : string) : list string :=
  match s with
  | EmptyString => [EmptyString]
  | String c s' =>
      match split sep s' with
      | [] => [String c EmptyString]
      | p :: ps =>
          if Ascii.eqb c sep then EmptyString :: p :: ps
          else String c p :: ps
      end
  end.

(** [s.split('/').next_back().unwrap_or("download")] *)
Definition last_segment (s : string) : string :=
  last (split slash s) "download".

End Str.

(* ------------------------------------------------------------------ *)
(** ** Paths and the filesystem (Unix [std::path] / [std::fs]) *)

Module Fs.

(** [std::path::Component] on Unix ([Prefix] only exists on Windows). *)
Inductive Component :=
| RootDir
| CurDir
| ParentDir
| Normal (s : string).

Definition component_eq_dec (a b : Component) : {a = b} + {a <> b}.
Proof. decide equality; apply string_dec. Defined.

Definition path := list Component.

Definition path_eq_dec (p q : path) : {p = q} + {p <> q} :=
  list_eq_dec component_eq_dec p q.

Definition body_component (seg : string) : list Component :=
  if string_dec seg "" then []
  else if string_dec seg "." then []
  else if string_dec seg ".." then [ParentDir]
  else [Normal seg].

(** [Path::new(s).components()]: a leading [/] is [RootDir], a leading
    [.] of a relative path is [CurDir], empty and other [.] pieces are
    dropped. *)
Definition components (s : string) : path :=
  match Str.split Str.slash s with
  | [] => []
  | first :: rest =>
      let body := flat_map body_component rest in
      match s with
      | String c _ =>
          if Ascii.eqb c Str.slash then RootDir :: body
          else if string_dec first "." then CurDir :: body
          else (body_component first ++ body)%list
      | EmptyString => []
      end
  end.

(** [base.join(rel)]: an absolute [rel] replaces [base]. *)
Definition join (base rel : path) : path :=
  match rel with
  | RootDir :: _ => rel
  | _ => (base ++ rel)%list
  end.

(** [Path::parent] *)
Definition parent (p : path) : option path :=
  match p with
  | [] => None
  | [RootDir] => None
  | _ => Some (removelast p)
  end.

(** The filesystem object a path names: [CurDir] does not change it.
    [..] is kept as a name and symlinks are not followed. *)
Definition key (p : path) : path :=
  filter (fun c => if component_eq_dec c CurDir then false else true) p.

Inductive Node :=
| NDir
| NFile (data : string)
| NLink (target : string).

(** The filesystem: an association list from keys to nodes; the working
    directory [[]] and the root [[RootDir]] always exist. *)
Definition FS := list (path * Node).

Definition implicit_dir (k : path) : bool :=
  match k with
  | [] | [RootDir] => true
  | _ => false
  end.

Definition lookup (k : path) (fs : FS) : option Node :=
  if implicit_dir k then Some NDir
  else match find (fun e => if path_eq_dec (fst e) k then true else false) fs with
       | Some (_, n) => Some n
       | None => None
       end.

Fixpoint is_prefix (p q : path) : bool :=
  match p, q with
  | [], _ => true
  | a :: p', b :: q' =>
      if component_eq_dec a b then is_prefix p' q' else false
  | _ :: _, [] => false
  end.

Definition remove_key (k : path) (fs : FS) : FS :=
  filter (fun e => if path_eq_dec (fst e) k then false else true) fs.

Definition set (k : path) (n : Node) (fs : FS) : FS := (k, n) :: remove_key k fs.

(** Primitive mutations: every change of the filesystem is one of them. *)
Inductive FsOp :=
| OpMkdir (k : path)
| OpRemoveAll (k : path)          (** [k] and everything below it *)
| OpCreate (k : path)             (** create or truncate to empty *)
| OpAppend (k : path) (data : string)
| OpSymlink (k : path) (target : string).

Definition apply_op (op : FsOp) (fs : FS) : FS :=
  match op with
  | OpMkdir k => set k NDir fs
  | OpRemoveAll k =>
      filter (fun e => negb (is_prefix k (fst e))) fs
  | OpCreate k => set k (NFile EmptyString) fs
  | OpAppend k d =>
      match lookup k fs with
      | Some (NFile old) => set k (NFile (old ++ d)) fs
      | _ => fs
      end
  | OpSymlink k t => set k (NLink t) fs
  end.

(** The single key an operation other than [OpRemoveAll] writes. *)
Definition op_target (op : FsOp) : path :=
  match op with
  | OpMkdir k | OpRemoveAll k | OpCreate k | OpAppend k _ | OpSymlink k _ => k
  end.

Definition replay (fs : FS) (ops : list FsOp) : FS :=
  fold_left (fun acc op => apply_op op acc) ops fs.

(** [Path::exists] *)
Definition exists_ (k : path) (fs : FS) : bool :=
  match lookup k fs with Some _ => true | None => false end.

(** OS error messages, as [io::Error]'s [Display] prints them. *)
Definition ENOENT := "No such file or directory (os error 2)".
Definition EEXIST := "File exists (os error 17)".
Definition ENOTDIR := "Not a directory (os error 20)".
Definition EISDIR := "Is a directory (os error 21)".
Definition EINVAL := "Invalid argument (os error 22)".

End Fs.

(* ------------------------------------------------------------------ *)
(** ** [VersionInfo] and its JSON form (serde_json) *)

(** [pub struct VersionInfo { tag_name: String, repo: String }] *)
Module VersionInfo.
Record t := mk { tag_name : string; repo : string }.
End VersionInfo.

Module Json.
Import Str.

Definition s1 (c : ascii) : string := String c EmptyString.

Definition hex_digit (n : nat) : ascii :=
  ascii_of_nat (if Nat.ltb n 10 then 48 + n else 87 + n).

(** serde_json's string escaping: a backslash before the double quote
    and the backslash, the five short escapes of control characters and
    [\u00XX] for the other ones below 0x20; every other byte is written
    as it is. *)
Definition escape_char (c : ascii) : string :=
  let n := nat_of_ascii c in
  if Ascii.eqb c dq then String bslash (s1 dq)
  else if Ascii.eqb c bslash then String bslash (s1 bslash)
  else if Nat.ltb n 32 then
    match n with
    | 8 => String bslash (s1 "b")
    | 9 => String bslash (s1 "t")
    | 10 => String bslash (s1 "n")
    | 12 => String bslash (s1 "f")
    | 13 => String bslash (s1 "r")
    | _ => String bslash (String "u" (String "0" (String "0"
             (String (hex_digit (n / 16)) (s1 (hex_digit (n mod 16)))))))
    end
  else s1 c.

Fixpoint escape (s : string) : string :=
  match s with
  | EmptyString => EmptyString
  | String c s' => escape_char c ++ escape s'
  end.

Definition quote (s : string) : string := String dq (escape s ++ s1 dq).

(** [serde_json::to_string(&VersionInfo { .. })]: fields in declaration
    order, no whitespace. *)
Definition to_string (v : VersionInfo.t) : string :=
  "{" ++ quote "tag_name" ++ ":" ++ quote (VersionInfo.tag_name v) ++ ","
      ++ quote "repo" ++ ":" ++ quote (VersionInfo.repo v) ++ "}".

Definition hex_val (c : ascii) : option nat :=
  let n := nat_of_ascii c in
  if Nat.leb 48 n && Nat.leb n 57 then Some (n - 48)
  else if Nat.leb 97 n && Nat.leb n 102 then Some (n - 87)
  else if Nat.leb 65 n && Nat.leb n 70 then Some (n - 55)
  else None.

Definition hex4 (a b c d : ascii) : option nat :=
  match hex_val a, hex_val b, hex_val c, hex_val d with
  | Some x, Some y, Some z, Some t => Some (((x * 16 + y) * 16 + z) * 16 + t)
  | _, _, _, _ => None
  end.

(** UTF-8 encoding of a code point of the basic plane. *)
Definition utf8 (cp : nat) : string :=
  if Nat.ltb cp 128 then s1 (ascii_of_nat cp)
  else if Nat.ltb cp 2048 then
    String (ascii_of_nat (192 + cp / 64)) (s1 (ascii_of_nat (128 + cp mod 64)))
  else String (ascii_of_nat (224 + cp / 4096))
         (String (ascii_of_nat (128 + (cp / 64) mod 64))
            (s1 (ascii_of_nat (128 + cp mod 64)))).

Definition simple_escape (e : ascii) : option ascii :=
  if Ascii.eqb e dq then Some dq
  else if Ascii.eqb e bslash then Some bslash
  else if Ascii.eqb e "/" then Some "/"%char
  else if Ascii.eqb e "b" then Some (ascii_of_nat 8)
  else if Ascii.eqb e "f" then Some (ascii_of_nat 12)
  else if Ascii.eqb e "n" then Some (ascii_of_nat 10)
  else if Ascii.eqb e "r" then Some (ascii_of_nat 13)
  else if Ascii.eqb e "t" then Some (ascii_of_nat 9)
  else None.

(** The body of a JSON string after its opening quote: the decoded
    contents and the input after the closing quote.  Surrogate pairs
    (code points above 0xFFFF) are not modelled and rejected. *)
Fixpoint string_body (s : string) : option (string * string) :=
  match s with
  | EmptyString => None
  | String c r =>
      if Ascii.eqb c dq then Some (EmptyString, r)
      else if Ascii.eqb c bslash then
        match r with
        | EmptyString => None
        | String e r' =>
            if Ascii.eqb e "u" then
              match r' with
              | String h1 (String h2 (String h3 (String h4 r''))) =>
                  match hex4 h1 h2 h3 h4 with
                  | Some cp =>
                      if Nat.leb 55296 cp && Nat.leb cp 57343 then None
                      else match string_body r'' with
                           | Some (x, t) => Some (utf8 cp ++ x, t)
                           | None => None
                           end
                  | None => None
                  end
              | _ => None
              end
            else match simple_escape e with
                 | Some ch =>
                     match string_body r' with
                     | Some (x, t) => Some (String ch x, t)
                     | None => None
                     end
                 | None => None
                 end
        end
      else if Nat.ltb (nat_of_ascii c) 32 then None
      else match string_body r with
           | Some (x, t) => Some (String c x, t)
           | None => None
           end
  end.

Definition is_ws (c : ascii) : bool :=
  let n := nat_of_ascii c in Nat.eqb n 32 || Nat.eqb n 9 || Nat.eqb n 10 || Nat.eqb n 13.

Fixpoint skip_ws (s : string) : string :=
  match s with
  | String c r => if is_ws c then skip_ws r else s
  | EmptyString => EmptyString
  end.

(** The fields of the object, after its opening brace; fields other
    than [tag_name] and [repo] are ignored (serde's default), but only
    string-valued ones are modelled. *)
Fixpoint fields (fuel : nat) (s : string) (tag rp : option string)
  : res (option string * option string * string) :=
  match fuel with
  | O => Err "recursion limit exceeded"
  | S fuel' =>
      match skip_ws s with
      | String c r =>
          if negb (Ascii.eqb c dq) then Err "key must be a string" else
          match string_body r with
          | None => Err "EOF while parsing a string" | Some (k, r1) =>
          match skip_ws r1 with
          | String ":"%char r2 =>
              match skip_ws r2 with
              | String c2 r3 =>
                  if negb (Ascii.eqb c2 dq) then Err "invalid type: expected a string" else
                  match string_body r3 with
                  | None => Err "EOF while parsing a string" | Some (v, r4) =>
                  let upd :=
                    if string_dec k "tag_name" then
                      match tag with
                      | Some _ => Err "duplicate field `tag_name`"
                      | None => Ok (Some v, rp)
                      end
                    else if string_dec k "repo" then
                      match rp with
                      | Some _ => Err "duplicate field `repo`"
                      | None => Ok (tag, Some v)
                      end
                    else Ok (tag, rp) in
                  match upd with
                  | Err e => Err e
                  | Ok (tag', rp') =>
                      match skip_ws r4 with
                      | String ","%char r5 => fields fuel' r5 tag' rp'
                      | String "}"%char r5 => Ok (tag', rp', r5)
                      | _ => Err "expected `,` or `}`"
                      end
                  end
                  end
              | EmptyString => Err "EOF while parsing a value"
              end
          | _ => Err "expected `:`"
          end
          end
      | EmptyString => Err "EOF while parsing an object"
      end
  end.

Definition finish (tag rp : option string) (rest : string) : res VersionInfo.t :=
  match skip_ws rest with
  | String _ _ => Err "trailing characters"
  | EmptyString =>
      match tag, rp with
      | Some t, Some r => Ok (VersionInfo.mk t r)
      | None, _ => Err "missing field `tag_name`"
      | _, None => Err "missing field `repo`"
      end
  end.

(** [serde_json::from_str::<VersionInfo>] *)
Definition from_str (s : string) : res VersionInfo.t :=
  match skip_ws s with
  | String "{"%char r =>
      match skip_ws r with
      | String "}"%char r' => finish None None r'
      | _ =>
          match fields (String.length r) r None None with
          | Ok (t, p, rest) => finish t p rest
          | Err e => Err e
          end
      end
  | _ => Err "expected value"
  end.

End Json.

(* ------------------------------------------------------------------ *)
(** ** The outside world: HTTP, archive decoders, GitHub's JSON *)

(** An HTTP response: status code and the body as a stream of chunks,
    each of which may fail. *)
Record Resp := { status : Z; chunks : list (res string) }.

(** [StatusCode::is_success] *)
Definition is_success (c : Z) : bool := (200 <=? c)%Z && (c <? 300)%Z.

(** A tar entry as [tar::Archive::entries] yields it.  Entry types other
    than directories and symlinks go to the [_] arm of the extractor;
    [TRegular] carries their contents. *)
Inductive TarKind :=
| TDir
| TSymlink (link_name : res (option string))
| TRegular (data : string).

Record TarEntry := { tpath : string; tkind : TarKind }.

Record ZipEntry := { zname : string; zdata : res string }.

Record World := {
  (** [Client::builder()...build()]: fails only on a bad proxy URL *)
  client_build : option string -> res unit;
  (** the response to the [n]-th request of the run, to [url] *)
  send : nat -> string -> res Resp;
  (** [resp.json::<ReleaseResponse>()] on a body: the [tag_name] *)
  release_tag : string -> res string;
  (** [Display] of a status code, e.g. [404 Not Found] *)
  show_status : Z -> string;
  (** gzip inflation followed by [tar::Archive::entries] *)
  tar_entries : string -> list (res TarEntry);
  (** [zip::ZipArchive::new] and [by_index] for every index *)
  zip_entries : string -> res (list (res ZipEntry))
}.

(* ------------------------------------------------------------------ *)
(** ** The monad *)

Inductive Event :=
| EvApi (url : string)        (** GET to the GitHub API *)
| EvGet (url : string)        (** GET of a download *)
| EvSleep (secs : nat)        (** [tokio::time::sleep] *)
| EvFs (op : Fs.FsOp).        (** a filesystem mutation *)

(** The log holds the most recent event first. *)
Record St := mkSt { fs : Fs.FS; log : list Event; nreq : nat }.

Definition M (A : Type) : Type := St -> res A * St.

Definition ret {A} (a : A) : M A := fun s => (Ok a, s).
Definition fail {A} (e : string) : M A := fun s => (Err e, s).

Definition bind {A B} (m : M A) (k : A -> M B) : M B :=
  fun s => match m s with
           | (Ok a, s') => k a s'
           | (Err e, s') => (Err e, s')
           end.

Notation "x <- m ;; k" := (bind m (fun x => k))
  (at level 61, m at next level, right associativity).
Notation "m ;; k" := (bind m (fun _ : unit => k))
  (at level 61, right associativity).

(** The [?] operator applied to a [Result] value. *)
Definition lift {A} (r : res A) : M A := fun s => (r, s).

(** [.map_err(f)] on a computation *)
Definition map_err {A} (f : string -> string) (m : M A) : M A :=
  fun s => match m s with
           | (Err e, s') => (Err (f e), s')
           | r => r
           end.

(** [match m { Ok .. , Err .. }]: run [m] and return its result *)
Definition attempt {A} (m : M A) : M (res A) :=
  fun s => let (r, s') := m s in (Ok r, s').

Definition emit (e : Event) : M unit :=
  fun s => (Ok tt, mkSt (fs s) (e :: log s) (nreq s)).

Definition mutate (op : Fs.FsOp) : M unit :=
  fun s => (Ok tt, mkSt (Fs.apply_op op (fs s)) (EvFs op :: log s) (nreq s)).

Definition read_fs {A} (f : Fs.FS -> A) : M A := fun s => (Ok (f (fs s)), s).

(* ------------------------------------------------------------------ *)
(** ** [std::fs] *)

Module StdFs.
Import Fs.

Fixpoint mkdirs (done rest : path) : M unit :=
  match rest with
  | [] => ret tt
  | c :: rest' =>
      let q := (done ++ [c])%list in
      n <- read_fs (lookup q) ;;
      match n with
      | Some NDir => mkdirs q rest'
      | None => mutate (OpMkdir q) ;; mkdirs q rest'
      | Some _ => fail (match rest' with [] => EEXIST | _ => ENOTDIR end)
      end
  end.

(** [fs::create_dir_all] *)
Definition create_dir_all (p : path) : M unit := mkdirs [] (key p).

(** [fs::remove_dir_all]: removing the working directory or the root
    deletes their contents and then fails on the directory itself. *)
Definition remove_dir_all (p : path) : M unit :=
  let k := key p in
  n <- read_fs (lookup k) ;;
  match n with
  | Some NDir =>
      if implicit_dir k then mutate (OpRemoveAll k) ;; fail EINVAL
      else mutate (OpRemoveAll k)
  | Some (NLink _) => mutate (OpRemoveAll k)
  | Some (NFile _) => fail ENOTDIR
  | None => fail ENOENT
  end.

Definition parent_is_dir (k : path) (fs : FS) : res unit :=
  match lookup (removelast k) fs with
  | Some NDir => Ok tt
  | Some _ => Err ENOTDIR
  | None => Err ENOENT
  end.

(** [File::create]: create or truncate a regular file. *)
Definition file_create (p : path) : M unit :=
  let k := key p in
  n <- read_fs (lookup k) ;;
  match k, n with
  | [], _ => fail ENOENT
  | _, Some NDir => fail EISDIR
  | _, _ =>
      pd <- read_fs (parent_is_dir k) ;;
      _ <- lift pd ;;
      mutate (OpCreate k)
  end.

(** [file.write_all(data)] on the file just created at [p] *)
Definition write_all (p : path) (data : string) : M unit :=
  mutate (OpAppend (key p) data).

(** [fs::write] = [File::create] then [write_all] *)
Definition write (p : path) (data : string) : M unit :=
  file_create p ;; write_all p data.

(** [fs::read_to_string] *)
Definition read_to_string (p : path) : M string :=
  n <- read_fs (lookup (key p)) ;;
  match n with
  | Some (NFile d) => ret d
  | Some NDir => fail EISDIR
  | _ => fail ENOENT
  end.

(** [std::os::unix::fs::symlink(target, p)] *)
Definition symlink (target : string) (p : path) : M unit :=
  let k := key p in
  n <- read_fs (lookup k) ;;
  match n with
  | Some _ => fail EEXIST
  | None =>
      pd <- read_fs (parent_is_dir k) ;;
      _ <- lift pd ;;
      mutate (OpSymlink k target)
  end.

(** [Path::exists] *)
Definition path_exists (p : path) : M bool := read_fs (exists_ (key p)).

End StdFs.

(* ------------------------------------------------------------------ *)
(** ** [src/downloader.rs] *)

Module Downloader.
Import Fs StdFs.

(** [pub struct Downloader] (the progress callback is not modelled);
    [retry_delay] in seconds. *)
Record t := mk {
  retry_count : nat;
  retry_delay : nat;
  api_url : string;
  repo : string;
  proxy : option string
}.

Definition with_config (repo : string) (retry_count retry_delay : nat)
  (proxy : option string) : t :=
  mk retry_count retry_delay
     ("https://api.github.com/repos/" ++ repo ++ "/releases/latest")
     repo proxy.

Definition new (repo : string) : t := with_config repo 3 3 None.

(** [get_release_asset_url_by_version] *)
Definition get_release_asset_url_by_version (d : t) (asset_name version : string)
  : string :=
  "https://github.com/" ++ repo d ++ "/releases/download/" ++ version ++ "/"
    ++ asset_name.

(** The whole body of a response, or the first failing chunk. *)
Fixpoint collect (cs : list (res string)) : res string :=
  match cs with
  | [] => Ok EmptyString
  | Err e :: _ => Err e
  | Ok c :: cs' =>
      match collect cs' with
      | Ok r => Ok (c ++ r)
      | Err e => Err e
      end
  end.

(** [Skip the first component, collect into a PathBuf] *)
Definition strip_first (p : path) : path := skipn 1 p.

Fixpoint before_nul (s : string) : string :=
  match s with
  | EmptyString => EmptyString
  | String c s' => if Ascii.eqb c "000"%char then EmptyString else String c (before_nul s')
  end.

Fixpoint backslash_to_slash (s : string) : string :=
  match s with
  | EmptyString => EmptyString
  | String c s' =>
      String (if Ascii.eqb c Str.bslash then "/"%char else c) (backslash_to_slash s')
  end.

(** [ZipFile::mangled_name]: cut at NUL, both separators, and only the
    [Normal] components kept. *)
Definition mangled_name (name : string) : path :=
  filter (fun c => match c with Normal _ => true | _ => false end)
    (components (backslash_to_slash (before_nul name))).

Section WithWorld.
Variable w : World.

Definition build_client (d : t) : res unit := client_build w (proxy d).

Definition api_get (url : string) : M Resp :=
  fun s => (send w (nreq s) url, mkSt (fs s) (EvApi url :: log s) (S (nreq s))).

Definition http_get (url : string) : M Resp :=
  fun s => (send w (nreq s) url, mkSt (fs s) (EvGet url :: log s) (S (nreq s))).

(** [get_latest_version]: one attempt. *)
Definition get_latest_version (d : t) : M string :=
  _ <- lift (build_client d) ;;
  resp <- api_get (api_url d) ;;
  if negb (is_success (status resp)) then
    let body := match collect (chunks resp) with Ok b => b | Err _ => EmptyString end in
    fail ("GitHub API returned " ++ show_status w (status resp) ++ ": " ++ body)
  else
    match collect (chunks resp) with
    | Ok b => lift (release_tag w b)
    | Err e => fail e
    end.

(** The loop [for _ in 0..retry_count] of [latest_version], with [k]
    iterations left and [last_err] the error of the previous one. *)
Fixpoint retry (d : t) (k : nat) (last_err : string) : M string :=
  match k with
  | O => fail ("unable to fetch latest version: " ++ last_err)
  | S k' =>
      r <- attempt (get_latest_version d) ;;
      match r with
      | Ok v => ret v
      | Err e => emit (EvSleep (retry_delay d)) ;; retry d k' e
      end
  end.

(** [latest_version] *)
Definition latest_version (d : t) : M string :=
  retry d (retry_count d) EmptyString.

(** [get_release_asset_url] *)
Definition get_release_asset_url (d : t) (asset_name : string) : M string :=
  version <- latest_version d ;;
  ret (get_release_asset_url_by_version d asset_name version).

Fixpoint write_chunks (p : path) (cs : list (res string)) : M unit :=
  match cs with
  | [] => ret tt
  | Err e :: _ => fail e
  | Ok c :: cs' => write_all p c ;; write_chunks p cs'
  end.

(** [download_raw] *)
Definition download_raw (d : t) (url dest : string) : M unit :=
  let filename := Str.last_segment url in
  let dest_path := join (components dest) (components filename) in
  create_dir_all (components dest) ;;
  _ <- lift (build_client d) ;;
  resp <- http_get url ;;
  if negb (is_success (status resp)) then
    fail ("download failed with status " ++ show_status w (status resp))
  else
    file_create dest_path ;;
    write_chunks dest_path (chunks resp).

(** [download_bytes] *)
Definition download_bytes (d : t) (url : string) : M string :=
  _ <- lift (build_client d) ;;
  resp <- http_get url ;;
  if negb (is_success (status resp)) then
    fail ("download failed with status " ++ show_status w (status resp))
  else lift (collect (chunks resp)).

(** The loop over the entries of [download_and_extract_zip]; setting
    the Unix mode is best effort and not modelled. *)
Fixpoint extract_zip (dest : path) (es : list (res ZipEntry)) : M unit :=
  match es with
  | [] => ret tt
  | e :: es' =>
      file <- lift e ;;
      let outpath := join dest (mangled_name (zname file)) in
      (if Str.ends_with "/" (zname file) then create_dir_all outpath
       else
         (match parent outpath with
          | Some par => create_dir_all par
          | None => ret tt
          end) ;;
         file_create outpath ;;
         data <- lift (zdata file) ;;
         write_all outpath data) ;;
      extract_zip dest es'
  end.

(** [download_and_extract_zip] *)
Definition download_and_extract_zip (d : t) (url dest : string) : M unit :=
  bytes <- download_bytes d url ;;
  create_dir_all (components dest) ;;
  es <- lift (zip_entries w bytes) ;;
  extract_zip (components dest) es.

(** [entry.unpack(&outpath)] for a regular file *)
Definition unpack_file (outpath : path) (data : string) : M unit :=
  file_create outpath ;; write_all outpath data.

(** One entry of the loop of [download_and_extract_tar_gz], once its
    path is stripped and non-empty. *)
Definition extract_tar_entry (outpath : path) (k : TarKind) : M unit :=
  match k with
  | TDir => create_dir_all outpath
  | TSymlink (Ok (Some link)) =>
      _ <- attempt (symlink link outpath) ;; ret tt
  | TSymlink _ => ret tt
  | TRegular data =>
      (match parent outpath with
       | Some par => create_dir_all par
       | None => ret tt
       end) ;;
      unpack_file outpath data
  end.

(** The loop over the entries of [download_and_extract_tar_gz]. *)
Fixpoint extract_tar (dest : path) (es : list (res TarEntry)) : M unit :=
  match es with
  | [] => ret tt
  | e :: es' =>
      entry <- lift e ;;
      match strip_first (components (tpath entry)) with
      | [] => extract_tar dest es'
      | stripped =>
          extract_tar_entry (join dest stripped) (tkind entry) ;;
          extract_tar dest es'
      end
  end.

(** [download_and_extract_tar_gz] *)
Definition download_and_extract_tar_gz (d : t) (url dest : string) : M unit :=
  bytes <- download_bytes d url ;;
  create_dir_all (components dest) ;;
  extract_tar (components dest) (tar_entries w bytes).

(** [fetch]: dispatch on the suffix of the URL. *)
Definition fetch (d : t) (url dest : string) : M unit :=
  if Str.ends_with ".tar.gz" url then download_and_extract_tar_gz d url dest
  else if Str.ends_with ".zip" url then download_and_extract_zip d url dest
  else download_raw d url dest.

(** [download_asset] *)
Definition download_asset (d : t) (asset_name version dest : string) : M unit :=
  url <- (if string_dec version "" then get_release_asset_url d asset_name
          else ret (get_release_asset_url_by_version d asset_name version)) ;;
  fetch d url dest.

End WithWorld.
End Downloader.

(* ------------------------------------------------------------------ *)
(** ** [src/install.rs] *)

Module Install.
Import Fs StdFs.

(** [pub struct Install] *)
Record t := mk {
  version_file : string;
  repo : string;
  install_path : string;
  downloader : Downloader.t
}.

(** [Install::new] *)
Definition new (repo install_path : string) : t :=
  mk "version.json" repo install_path (Downloader.with_config repo 3 3 None).

(** [version_file_path] *)
Definition version_file_path (i : t) : path :=
  join (components (install_path i)) (components (version_file i)).

Section WithWorld.
Variable w : World.

(** [already_installed] *)
Definition already_installed (i : t) : M bool :=
  path_exists (version_file_path i).

(** [is_latest_version] *)
Definition is_latest_version (i : t) : M (bool * VersionInfo.t) :=
  raw <- map_err (fun e => "error reading version info file: " ++ e)
           (read_to_string (version_file_path i)) ;;
  version_info <- map_err (fun e => "error parsing version info: " ++ e)
           (lift (Json.from_str raw)) ;;
  if negb (String.eqb (VersionInfo.repo version_info) (repo i)) then
    fail ("installed version is for a different repository: "
            ++ VersionInfo.repo version_info)
  else
    latest <- map_err (fun e => "error getting latest version: " ++ e)
                (Downloader.latest_version w (downloader i)) ;;
    ret (String.eqb latest (VersionInfo.tag_name version_info), version_info).

(** [create_version_file] ([serde_json::to_string] cannot fail here) *)
Definition create_version_file (i : t) (version : string) : M unit :=
  map_err (fun e => "error creating install directory: " ++ e)
    (create_dir_all (components (install_path i))) ;;
  let info := VersionInfo.mk version (repo i) in
  let json := Json.to_string info in
  map_err (fun e => "error writing version info: " ++ e)
    (write (version_file_path i) json).

(** [initial_install_asset] *)
Definition initial_install_asset (i : t) (asset_name version : string) : M unit :=
  map_err (fun e => "error downloading asset: " ++ e)
    (Downloader.download_asset w (downloader i) asset_name version (install_path i)) ;;
  resolved_version <-
    (if string_dec version "" then
       map_err (fun e => "error getting latest version: " ++ e)
         (Downloader.latest_version w (downloader i))
     else ret version) ;;
  create_version_file i resolved_version.

(** [upgrade_asset] *)
Definition upgrade_asset (i : t) (old_info : VersionInfo.t) : M unit :=
  let p := components (install_path i) in
  ex <- path_exists p ;;
  (if ex then
     map_err (fun e => "error removing old installation: " ++ e) (remove_dir_all p)
   else ret tt) ;;
  latest <- map_err (fun e => "error getting latest version: " ++ e)
              (Downloader.latest_version w (downloader i)) ;;
  map_err (fun e => "error downloading asset: " ++ e)
    (Downloader.download_asset w (downloader i) "" latest (install_path i)) ;;
  create_version_file i latest.

(** [install_asset] *)
Definition install_asset (i : t) (asset_name version : string) (allow_upgrade : bool)
  : M unit :=
  installed <- already_installed i ;;
  if installed then
    if negb allow_upgrade then ret tt
    else
      r <- is_latest_version i ;;
      let (is_latest, version_info) := r in
      if is_latest then ret tt else upgrade_asset i version_info
  else initial_install_asset i asset_name version.

(** [get_installed_version] *)
Definition get_installed_version (i : t) : M VersionInfo.t :=
  raw <- map_err (fun e => "error reading version info file: " ++ e)
           (read_to_string (version_file_path i)) ;;
  map_err (fun e => "error parsing version info: " ++ e) (lift (Json.from_str raw)).

End WithWorld.
End Install.

(* ------------------------------------------------------------------ *)
(** ** Listing release assets ([Downloader::get_latest_release_assets],
    [Downloader::download_latest_asset]) *)

(** The two further libraries these functions use. *)
Record Libs := {
  (** [resp.json::<ReleaseAssetsResponse>()] on a body: the asset names *)
  release_assets : string -> res (list string);
  (** [regex::Regex::new(pattern)], and [is_match] of the compiled regex *)
  regex_new : string -> res (string -> bool)
}.

Module Release.
Import Fs StdFs.

Section WithWorld.
Variable w : World.
Variable x : Libs.

(** [get_latest_release_assets] *)
Definition get_latest_release_assets (d : Downloader.t) : M (list string) :=
  _ <- lift (Downloader.build_client w d) ;;
  resp <- Downloader.api_get w (Downloader.api_url d) ;;
  if negb (is_success (status resp)) then
    let body := match Downloader.collect (chunks resp) with Ok b => b | Err _ => EmptyString end in
    fail ("GitHub API returned " ++ show_status w (status resp) ++ ": " ++ body)
  else
    match Downloader.collect (chunks resp) with
    | Ok b => lift (release_assets x b)
    | Err e => fail e
    end.

(** [download_latest_asset] *)
Definition download_latest_asset (d : Downloader.t) (pattern dest : string) : M unit :=
  re <- lift (regex_new x pattern) ;;
  assets <- get_latest_release_assets d ;;
  match find re assets with
  | None => fail "no matching asset found"
  | Some name => Downloader.download_asset w d name EmptyString dest
  end.

End WithWorld.
End Release.

(* ------------------------------------------------------------------ *)
(** ** The builder API ([src/api.rs]); progress callbacks not modelled *)

Module Api.

(** [pub struct Api]; [retry_delay] in seconds *)
Record t := mk {
  install_dir : string;
  retry_count : nat;
  retry_delay : nat;
  proxy : option string
}.

(** [std::env::var(name).ok().filter(|s| !s.is_empty())] *)
Definition env_nonempty (env : string -> option string) (name : string) : option string :=
  match env name with
  | Some v => if string_dec v EmptyString then None else Some v
  | None => None
  end.

(** [Api::new], reading the environment [env] *)
Definition new (env : string -> option string) : t :=
  let proxy :=
    match env_nonempty env "HTTP_PROXY" with
    | Some p => Some p
    | None => env_nonempty env "HTTPS_PROXY"
    end in
  mk "." 3 3 proxy.

Definition set_install_dir (a : t) (dir : string) : t :=
  mk dir (retry_count a) (retry_delay a) (proxy a).
Definition set_retry_count (a : t) (count : nat) : t :=
  mk (install_dir a) count (retry_delay a) (proxy a).
Definition set_retry_delay_secs (a : t) (secs : nat) : t :=
  mk (install_dir a) (retry_count a) secs (proxy a).
Definition set_proxy (a : t) (p : string) : t :=
  mk (install_dir a) (retry_count a) (retry_delay a) (Some p).

(** [pub struct RepoApi] *)
Record RepoApi := mkRepo { rapi : t; rrepo : string }.

Definition repo (a : t) (r : string) : RepoApi := mkRepo a r.

(** [pub struct VersionApi] *)
Record VersionApi := mkVersion {
  vapi : t;
  vrepo : string;
  vversion : string;
  is_latest : bool
}.

Definition latest (r : RepoApi) : VersionApi := mkVersion (rapi r) (rrepo r) EmptyString true.
Definition version (r : RepoApi) (v : string) : VersionApi := mkVersion (rapi r) (rrepo r) v false.

(** [RepoApi::get_installed_version] *)
Definition get_installed_version (r : RepoApi) : M VersionInfo.t :=
  Install.get_installed_version (Install.new (rrepo r) (install_dir (rapi r))).

Section WithWorld.
Variable w : World.

(** [VersionApi::install] *)
Definition install (v : VersionApi) (asset_fn : string -> string) : M unit :=
  let a := vapi v in
  let downloader :=
    Downloader.with_config (vrepo v) (retry_count a) (retry_delay a) (proxy a) in
  version <- (if is_latest v then Downloader.latest_version w downloader
              else ret (vversion v)) ;;
  let asset_name := asset_fn version in
  let inst := Install.new (vrepo v) (install_dir a) in
  let inst := Install.mk (Install.version_file inst) (Install.repo inst)
                (Install.install_path inst) downloader in
  Install.install_asset w inst asset_name version (is_latest v).

End WithWorld.
End Api.

(* ------------------------------------------------------------------ *)
(** ** Observations of a run *)

(** Events that touch neither the filesystem nor a download: requests
    to the GitHub API and sleeps. *)
Definition net_event (e : Event) : Prop :=
  match e with EvApi _ | EvSleep _ => True | _ => False end.

Definition mkdir_event (e : Event) : Prop :=
  match e with EvFs (Fs.OpMkdir _) => True | _ => False end.

(** The filesystem mutations of a log, oldest first. *)
Definition fs_ops (l : list Event) : list Fs.FsOp :=
  rev (flat_map (fun e => match e with EvFs op => [op] | _ => [] end) l).

Definition is_sleep (e : Event) : bool :=
  match e with EvSleep _ => true | _ => false end.

(** The [k] iterations of the loop of [latest_version] run from [s],
    when each of them fails: [Some (e_last, s')], with [e_last] the
    error of the last attempt ([last_err] when [k = 0]) and [s'] the
    state after its sleep; [None] when one of the attempts succeeds. *)
Fixpoint failing_attempts (w : World) (d : Downloader.t) (k : nat) (s : St)
  (last_err : string) : option (string * St) :=
  match k with
  | O => Some (last_err, s)
  | S k' =>
      match Downloader.get_latest_version w d s with
      | (Ok _, _) => None
      | (Err e, s1) =>
          failing_attempts w d k'
            (mkSt (fs s1) (EvSleep (Downloader.retry_delay d) :: log s1) (nreq s1)) e
      end
  end.

(* ------------------------------------------------------------------ *)
(** ** Concrete worlds and states *)

Module Examples.
Import Fs.

(** A network on which every request succeeds with status 200, the
    latest release is [v2] and every tarball has the entries [tars]. *)
Definition online (tars : list (res TarEntry)) : World := {|
  client_build := fun _ => Ok tt;
  send := fun _ _ => Ok {| status := 200%Z; chunks := [Ok "payload"] |};
  release_tag := fun _ => Ok "v2";
  show_status := fun _ => "200 OK";
  tar_entries := fun _ => tars;
  zip_entries := fun _ => Err "invalid Zip archive: Could not find central directory end"
|}.

(** A network on which every request fails. *)
Definition offline : World := {|
  client_build := fun _ => Ok tt;
  send := fun _ _ => Err "error sending request for url";
  release_tag := fun _ => Ok "v2";
  show_status := fun _ => "200 OK";
  tar_entries := fun _ => [];
  zip_entries := fun _ => Err "invalid Zip archive: Could not find central directory end"
|}.

(** The entries [pkg-1.0/] (a directory) and [pkg-1.0/bin/tool]. *)
Definition pkg_dir : res TarEntry := Ok {| tpath := "pkg-1.0/"; tkind := TDir |}.
Definition pkg_tool : res TarEntry :=
  Ok {| tpath := "pkg-1.0/bin/tool"; tkind := TRegular "bin" |}.

Definition empty : St := mkSt [] [] 0.

(** An install directory holding a version file with contents [raw]. *)
Definition with_raw (i : Install.t) (raw : string) : St :=
  mkSt [(key (Fs.components (Install.install_path i)), NDir);
        (key (Install.version_file_path i), NFile raw)] [] 0.

Definition with_state (i : Install.t) (vi : VersionInfo.t) : St :=
  with_raw i (Json.to_string vi).

Definition i_or : Install.t := Install.new "o/r" "out".
Definition v1_or : VersionInfo.t := VersionInfo.mk "v1" "o/r".
Definition v2_or : VersionInfo.t := VersionInfo.mk "v2" "o/r".
Definition tarball : list (res TarEntry) := [pkg_dir; pkg_tool].

End Examples.

(** Further worlds, for the fetch pipeline and the builder API. *)
Module MoreExamples.
Import Fs.


Definition docs_dir : res ZipEntry := Ok {| zname := "docs/"; zdata := Ok EmptyString |}.
Definition docs_a : res ZipEntry := Ok {| zname := "docs/a.txt"; zdata := Ok "A" |}.


(** A download whose body is cut off after its first chunk. *)
Definition interrupted : World := {|
  client_build := fun _ => Ok tt;
  send := fun _ _ => Ok {| status := 200%Z;
                          chunks := [Ok "ab"; Err "connection reset"; Ok "c"] |};
  release_tag := fun _ => Ok "v2";
  show_status := fun _ => "200 OK";
  tar_entries := fun _ => [];
  zip_entries := fun _ => Err "invalid Zip archive: Could not find central directory end"
|}.

(** The first [n] requests of the run fail, the later ones succeed. *)
Definition flaky (n : nat) : World := {|
  client_build := fun _ => Ok tt;
  send := fun i _ => if Nat.ltb i n then Err "error sending request for url"
                     else Ok {| status := 200%Z; chunks := [Ok "{}"] |};
  release_tag := fun _ => Ok "v2";
  show_status := fun _ => "200 OK";
  tar_entries := fun _ => [];
  zip_entries := fun _ => Err "invalid Zip archive: Could not find central directory end"
|}.

(** A release with two assets; [a^] is a pattern no name matches and
    other patterns match the names they start. *)
Definition libs : Libs := {|
  release_assets := fun _ => Ok ["tool-linux.tar.gz"; "tool-windows.zip"];
  regex_new := fun p => if string_dec p "a^" then Ok (fun _ => false)
                        else Ok (String.prefix p)
|}.

(** Building the HTTP client fails whenever a proxy is configured. *)
Definition bad_proxy : World := {|
  client_build := fun p => match p with
                           | Some _ => Err "builder error: unknown proxy scheme"
                           | None => Ok tt
                           end;
  send := fun _ _ => Ok {| status := 200%Z; chunks := [Ok "{}"] |};
  release_tag := fun _ => Ok "v2";
  show_status := fun _ => "200 OK";
  tar_entries := fun _ => [];
  zip_entries := fun _ => Err "invalid Zip archive: Could not find central directory end"
|}.

(** [Api::new()] with neither proxy variable set, installing into [out]. *)
Definition api_out : Api.t := Api.set_install_dir (Api.new (fun _ => None)) "out".

End MoreExamples.

(* ================================================================== *)
(** * Proofs *)

Module StrFacts.
Import Str.

Lemma append_assoc (a b c : string) : (a ++ b) ++ c = a ++ (b ++ c).
Proof. induction a as [|x a IH]; simpl; [reflexivity | now rewrite IH]. Qed.

Lemma append_empty_r (a : string) : a ++ EmptyString = a.
Proof. induction a as [|x a IH]; simpl; [reflexivity | now rewrite IH]. Qed.

Lemma rev_append (a b : string) : rev (a ++ b) = rev b ++ rev a.
Proof.
  induction a as [|x a IH]; simpl.
  - now rewrite append_empty_r.
  - now rewrite IH, append_assoc.
Qed.


Lemma split_slash_end (x : string) :
  exists l, l <> [] /\ split slash (x ++ "/") = (l ++ [EmptyString])%list.
Proof.
  induction x as [|c x IH]; simpl.
  - exists [EmptyString]. split; [discriminate | reflexivity].
  - destruct IH as [l [Hl Hs]]. rewrite Hs.
    destruct l as [|p l]; [contradiction|]. simpl.
    destruct (Ascii.eqb c slash).
    + exists (EmptyString :: p :: l). split; [discriminate | reflexivity].
    + exists (String c p :: l). split; [discriminate | reflexivity].
Qed.

Lemma last_segment_slash (x : string) : last_segment (x ++ "/") = EmptyString.
Proof.
  unfold last_segment. destruct (split_slash_end x) as [l [_ Hs]].
  rewrite Hs. apply last_last.
Qed.

Lemma ends_with_slash_tgz (x : string) : ends_with ".tar.gz" (x ++ "/") = false.
Proof. unfold ends_with. rewrite rev_append. reflexivity. Qed.

Lemma ends_with_slash_zip (x : string) : ends_with ".zip" (x ++ "/") = false.
Proof. unfold ends_with. rewrite rev_append. reflexivity. Qed.

End StrFacts.

Module FsFacts.
Import Fs.
Local Open Scope list_scope.

Lemma find_remove_key (k k' : path) (fs : FS) :
  k <> k' ->
  find (fun e => if path_eq_dec (fst e) k' then true else false) (remove_key k fs)
  = find (fun e => if path_eq_dec (fst e) k' then true else false) fs.
Proof.
  intros Hne. induction fs as [|[k0 n0] fs IH]; simpl; [reflexivity|].
  destruct (path_eq_dec k0 k) as [->|Hk0]; simpl.
  - destruct (path_eq_dec k k') as [E|_]; [contradiction | exact IH].
  - destruct (path_eq_dec k0 k'); [reflexivity | exact IH].
Qed.

Lemma lookup_set_eq (k : path) (n : Node) (fs : FS) :
  implicit_dir k = false -> lookup k (set k n fs) = Some n.
Proof.
  intros Hi. unfold lookup, set. rewrite Hi. simpl.
  destruct (path_eq_dec k k); [reflexivity | contradiction].
Qed.

Lemma lookup_set_neq (k k' : path) (n : Node) (fs : FS) :
  k <> k' -> lookup k' (set k n fs) = lookup k' fs.
Proof.
  intros Hne. unfold lookup, set. destruct (implicit_dir k'); [reflexivity|].
  simpl. destruct (path_eq_dec k k') as [E|_]; [contradiction|].
  now rewrite find_remove_key.
Qed.

Lemma is_prefix_refl (p : path) : is_prefix p p = true.
Proof.
  induction p as [|a p IH]; simpl; [reflexivity|].
  destruct (component_eq_dec a a); [exact IH | contradiction].
Qed.

Lemma is_prefix_app (p q : path) : is_prefix p (p ++ q) = true.
Proof.
  induction p as [|a p IH]; simpl; [reflexivity|].
  destruct (component_eq_dec a a); [exact IH | contradiction].
Qed.

Lemma is_prefix_length (p q : path) :
  is_prefix p q = true -> length p <= length q.
Proof.
  revert q; induction p as [|a p IH]; intros [|b q]; simpl; try lia; try discriminate.
  destruct (component_eq_dec a b); [intros H; apply IH in H; lia | discriminate].
Qed.

Lemma lookup_remove_all (k q : path) (fs : FS) :
  is_prefix k q = true -> implicit_dir q = false ->
  lookup q (apply_op (OpRemoveAll k) fs) = None.
Proof.
  intros Hp Hi. unfold lookup. rewrite Hi. simpl.
  induction fs as [|[k0 n0] fs IH]; simpl; [reflexivity|].
  destruct (is_prefix k k0) eqn:E; simpl.
  - destruct (path_eq_dec k0 q) as [->|_]; [congruence | exact IH].
  - destruct (path_eq_dec k0 q) as [->|_]; [congruence | exact IH].
Qed.

Lemma lookup_remove_all_other (k q : path) (fs : FS) :
  is_prefix k q = false ->
  lookup q (apply_op (OpRemoveAll k) fs) = lookup q fs.
Proof.
  intros Hp. unfold lookup. destruct (implicit_dir q); [reflexivity|]. simpl.
  induction fs as [|[k0 n0] fs IH]; simpl; [reflexivity|].
  destruct (is_prefix k k0) eqn:E; simpl.
  - destruct (path_eq_dec k0 q) as [->|_]; [congruence | exact IH].
  - destruct (path_eq_dec k0 q); [reflexivity | exact IH].
Qed.

(** An operation leaves every key outside its footprint alone: the
    target itself, and for [OpRemoveAll] everything below it. *)
Lemma lookup_apply_op_other (op : FsOp) (q : path) (fs : FS) :
  is_prefix (op_target op) q = false ->
  lookup q (apply_op op fs) = lookup q fs.
Proof.
  intros Hp.
  assert (Hne : op_target op <> q).
  { intros <-. now rewrite is_prefix_refl in Hp. }
  destruct op as [k|k|k|k d|k t]; simpl in *.
  - now apply lookup_set_neq.
  - now apply lookup_remove_all_other.
  - now apply lookup_set_neq.
  - destruct (lookup k fs) as [[| |]|]; try reflexivity. now apply lookup_set_neq.
  - now apply lookup_set_neq.
Qed.

Lemma key_app (p q : path) : key (p ++ q) = (key p ++ key q)%list.
Proof. unfold key. apply filter_app. Qed.

End FsFacts.

(** ** Runs of the monadic code *)

Module Run.
Import Fs FsFacts StdFs.
Local Open Scope list_scope.

Lemma mkdirs_frame (rest done : path) (s s' : St) r :
  mkdirs done rest s = (r, s') ->
  nreq s' = nreq s /\
  forall q, is_prefix q (done ++ rest) = false \/ length q <= length done ->
       lookup q (fs s') = lookup q (fs s).
Proof.
  revert done s. induction rest as [|c rest IH]; intros done s H.
  - cbn in H. inversion H; subst. auto.
  - cbn in H. destruct (lookup (done ++ [c]) (fs s)) as [[| |]|] eqn:E.
    + apply IH in H. destruct H as [Hn H]. split; [exact Hn|]. intros q Hq. apply H.
      rewrite <- app_assoc. simpl. destruct Hq as [Hq|Hq]; [left; exact Hq|].
      right. rewrite length_app. simpl. lia.
    + inversion H; subst. auto.
    + inversion H; subst. auto.
    + apply IH in H. destruct H as [Hn H]. cbn in Hn. split; [exact Hn|].
      intros q Hq. rewrite H.
      * cbn. apply lookup_set_neq. intros <-.
        destruct Hq as [Hq|Hq].
        -- replace (done ++ c :: rest) with ((done ++ [c]) ++ rest) in Hq
             by (rewrite <- app_assoc; reflexivity).
           rewrite is_prefix_app in Hq. discriminate.
        -- rewrite length_app in Hq. simpl in Hq. lia.
      * rewrite <- app_assoc. simpl. destruct Hq as [Hq|Hq]; [left; exact Hq|].
        right. rewrite length_app. simpl. lia.
Qed.

Lemma mkdirs_ok (rest done : path) (s s' : St) :
  mkdirs done rest s = (Ok tt, s') -> rest <> [] ->
  lookup (done ++ rest) (fs s') = Some NDir.
Proof.
  revert done s. induction rest as [|c rest IH]; intros done s H Hne; [contradiction|].
  cbn in H. replace (done ++ c :: rest) with ((done ++ [c]) ++ rest)
    by (rewrite <- app_assoc; reflexivity).
  destruct rest as [|c' rest'].
  - rewrite app_nil_r.
    destruct (lookup (done ++ [c]) (fs s)) as [[| |]|] eqn:E; cbn in H;
      inversion H; subst; cbn; try exact E.
    apply lookup_set_eq. unfold lookup in E. destruct (implicit_dir (done ++ [c])); congruence.
  - destruct (lookup (done ++ [c]) (fs s)) as [[| |]|] eqn:E; cbn in H;
      try (inversion H; fail); (eapply IH; [exact H | discriminate]).
Qed.

Lemma create_dir_all_ok (p : path) (s s' : St) :
  create_dir_all p s = (Ok tt, s') -> lookup (key p) (fs s') = Some NDir.
Proof.
  unfold create_dir_all. intros H. destruct (key p) as [|c k] eqn:E.
  - reflexivity.
  - apply mkdirs_ok in H; [exact H | discriminate].
Qed.

Lemma create_dir_all_frame (p : path) (s s' : St) r :
  create_dir_all p s = (r, s') ->
  nreq s' = nreq s /\
  forall q, is_prefix q (key p) = false -> lookup q (fs s') = lookup q (fs s).
Proof.
  unfold create_dir_all. intros H. apply mkdirs_frame in H.
  destruct H as [Hn H]. split; [exact Hn|]. intros q Hq. apply H. now left.
Qed.

Lemma file_create_dir (p : path) (s : St) :
  lookup (key p) (fs s) = Some NDir -> exists e, file_create p s = (Err e, s).
Proof.
  intros H. unfold file_create. cbn. rewrite H.
  destruct (key p); eexists; reflexivity.
Qed.

Ltac net_frame :=
  split; [reflexivity|]; eexists; split;
  [ match goal with |- ?a :: ?l = ?n ++ ?l => instantiate (1 := [a]); reflexivity
                  | |- ?l = ?n ++ ?l => instantiate (1 := []); reflexivity end
  | repeat constructor ].

Ltac unf_in H :=
  cbv beta iota delta [bind ret fail lift attempt emit mutate read_fs map_err] in H.

Lemma get_latest_version_frame w d s r s' :
  Downloader.get_latest_version w d s = (r, s') ->
  fs s' = fs s /\ exists new, log s' = new ++ log s /\ Forall net_event new.
Proof.
  unfold Downloader.get_latest_version, Downloader.api_get. intros H. cbn in H.
  destruct (Downloader.build_client w d); cbn in H.
  - destruct (send w (nreq s) (Downloader.api_url d)) as [resp|e]; cbn in H.
    + destruct (negb (is_success (status resp))); cbn in H;
      [|destruct (Downloader.collect (chunks resp)); cbn in H].
      all: inversion H; subst; cbn; net_frame.
    + inversion H; subst; cbn; net_frame.
  - inversion H; subst; cbn; net_frame.
Qed.

Lemma retry_frame w d k e0 s r s' :
  Downloader.retry w d k e0 s = (r, s') ->
  fs s' = fs s /\ exists new, log s' = new ++ log s /\ Forall net_event new.
Proof.
  revert e0 s. induction k as [|k IH]; intros e0 s H; cbn in H; unf_in H.
  - inversion H; subst. net_frame.
  - destruct (Downloader.get_latest_version w d s) as [r1 s1] eqn:E.
    apply get_latest_version_frame in E. destruct E as [Hfs [n1 [Hl Hn]]].
    destruct r1 as [v|e]; cbn in H.
    + inversion H; subst. split; [exact Hfs|]. exists n1. auto.
    + apply IH in H. destruct H as [Hfs' [n2 [Hl' Hn']]]. cbn in *.
      split; [congruence|]. exists (n2 ++ EvSleep (Downloader.retry_delay d) :: n1).
      rewrite Hl', Hl, <- app_assoc. split; [reflexivity|].
      apply Forall_app; split; [exact Hn'|]. constructor; [exact I | exact Hn].
Qed.

Lemma latest_version_frame w d s r s' :
  Downloader.latest_version w d s = (r, s') ->
  fs s' = fs s /\ exists new, log s' = new ++ log s /\ Forall net_event new.
Proof. apply retry_frame. Qed.

Lemma url_empty_asset d v :
  exists x, Downloader.get_release_asset_url_by_version d "" v = (x ++ "/")%string.
Proof.
  unfold Downloader.get_release_asset_url_by_version.
  exists ("https://github.com/" ++ Downloader.repo d ++ "/releases/download/" ++ v)%string.
  rewrite !StrFacts.append_assoc. reflexivity.
Qed.

Lemma download_raw_empty_name w d url dest s :
  Str.last_segment url = EmptyString ->
  exists e s', Downloader.download_raw w d url dest s = (Err e, s') /\
    forall q, is_prefix q (key (components dest)) = false ->
              lookup q (fs s') = lookup q (fs s).
Proof.
  intros Hl. unfold Downloader.download_raw. rewrite Hl.
  change (components EmptyString) with (@nil Component).
  unfold join. rewrite app_nil_r.
  cbv beta iota delta [bind ret fail lift attempt emit mutate read_fs map_err].
  destruct (create_dir_all (components dest) s) as [[[]|e] s1] eqn:E;
    pose proof E as Ef; apply create_dir_all_frame in Ef; destruct Ef as [_ Ef].
  2:{ eexists _, _. split; [reflexivity | exact Ef]. }
  apply create_dir_all_ok in E.
  destruct (Downloader.build_client w d).
  2:{ eexists _, _. split; [reflexivity | exact Ef]. }
  unfold Downloader.http_get.
  destruct (send w (nreq s1) url) as [resp|e].
  2:{ eexists _, _. split; [reflexivity | exact Ef]. }
  destruct (negb (is_success (status resp))).
  { eexists _, _. split; [reflexivity | exact Ef]. }
  destruct (file_create_dir (components dest)
              {| fs := fs s1; log := EvGet url :: log s1; nreq := S (nreq s1) |} E)
    as [e He].
  rewrite He. eexists _, _. split; [reflexivity | exact Ef].
Qed.

Lemma fetch_empty_name w d v dest s :
  exists e s',
    Downloader.fetch w d (Downloader.get_release_asset_url_by_version d "" v) dest s
      = (Err e, s') /\
    forall q, is_prefix q (key (components dest)) = false ->
              lookup q (fs s') = lookup q (fs s).
Proof.
  destruct (url_empty_asset d v) as [x Hx]. rewrite Hx.
  unfold Downloader.fetch.
  rewrite StrFacts.ends_with_slash_tgz, StrFacts.ends_with_slash_zip.
  apply download_raw_empty_name, StrFacts.last_segment_slash.
Qed.

Lemma download_asset_empty_name w d v dest s :
  exists e s', Downloader.download_asset w d "" v dest s = (Err e, s') /\
    forall q, is_prefix q (key (components dest)) = false ->
              lookup q (fs s') = lookup q (fs s).
Proof.
  unfold Downloader.download_asset.
  destruct (string_dec v "") as [_|_].
  - unfold Downloader.get_release_asset_url.
    cbv beta iota delta [bind ret fail lift attempt emit mutate read_fs map_err].
    destruct (Downloader.latest_version w d s) as [[v'|e] s1] eqn:E;
      apply latest_version_frame in E; destruct E as [Hfs _].
    + destruct (fetch_empty_name w d v' dest s1) as [e [s2 [H2 F2]]].
      rewrite H2. exists e, s2. split; [reflexivity|].
      intros q Hq. rewrite F2, Hfs by exact Hq. reflexivity.
    + exists e, s1. split; [reflexivity|]. intros q _. now rewrite Hfs.
  - cbv beta iota delta [bind ret].
    apply fetch_empty_name.
Qed.

Lemma remove_dir_all_ok p s s1 :
  remove_dir_all p s = (Ok tt, s1) ->
  exists_ (key p) (fs s) = true /\
  fs s1 = apply_op (OpRemoveAll (key p)) (fs s) /\ nreq s1 = nreq s.
Proof.
  unfold remove_dir_all, exists_.
  cbv beta iota delta [bind ret fail lift attempt emit mutate read_fs map_err].
  destruct (lookup (key p) (fs s)) as [[| |]|]; try discriminate; intros H.
  - destruct (implicit_dir (key p)); inversion H; subst; auto.
  - inversion H; subst; auto.
Qed.

Lemma implicit_dir_snoc (l : path) (x : string) :
  implicit_dir (l ++ [Normal x]) = false.
Proof. destruct l as [|a [|b l]]; try destruct a; reflexivity. Qed.

Lemma is_prefix_longer (p q : path) :
  length p < length q -> is_prefix q p = false.
Proof.
  intros H. destruct (is_prefix q p) eqn:E; [|reflexivity].
  apply is_prefix_length in E. lia.
Qed.

Lemma version_key (i : Install.t) :
  Install.version_file i = "version.json" ->
  key (Install.version_file_path i)
  = key (components (Install.install_path i)) ++ [Normal "version.json"].
Proof.
  intros Hv. unfold Install.version_file_path. rewrite Hv.
  change (components "version.json") with [Normal "version.json"].
  unfold join. now rewrite key_app.
Qed.

Lemma upgrade_asset_fails w i old s :
  exists e s', Install.upgrade_asset w i old s = (Err e, s').
Proof.
  unfold Install.upgrade_asset.
  cbv beta iota delta [bind ret fail lift attempt emit mutate read_fs map_err path_exists].
  destruct (if exists_ _ (fs s) then _ else _) as [[[]|e] s1].
  2:{ eexists _, _; reflexivity. }
  destruct (Downloader.latest_version w (Install.downloader i) s1) as [[v|e] s2].
  2:{ eexists _, _; reflexivity. }
  destruct (download_asset_empty_name w (Install.downloader i) v (Install.install_path i) s2)
    as [e [s3 [H3 _]]].
  rewrite H3. eexists _, _; reflexivity.
Qed.

Lemma mkdirs_log (rest done : path) (s s' : St) r :
  mkdirs done rest s = (r, s') ->
  exists pre, log s' = pre ++ log s /\ Forall mkdir_event pre.
Proof.
  revert done s. induction rest as [|c rest IH]; intros done s H.
  - cbn in H. inversion H; subst. exists []. auto.
  - cbn in H. destruct (lookup (done ++ [c]) (fs s)) as [[| |]|] eqn:E.
    + exact (IH _ _ H).
    + inversion H; subst. exists []. auto.
    + inversion H; subst. exists []. auto.
    + apply IH in H. destruct H as [pre [Hl Hf]]. cbn in Hl.
      exists (pre ++ [EvFs (OpMkdir (done ++ [c]))]). rewrite <- app_assoc. split; [exact Hl|].
      apply Forall_app. split; [exact Hf | repeat constructor].
Qed.

Lemma file_create_ok (p : path) (s s' : St) :
  file_create p s = (Ok tt, s') ->
  implicit_dir (key p) = false /\
  s' = mkSt (apply_op (OpCreate (key p)) (fs s)) (EvFs (OpCreate (key p)) :: log s) (nreq s).
Proof.
  unfold file_create.
  cbv beta iota delta [bind ret fail lift attempt emit mutate read_fs map_err].
  destruct (key p) as [|c k] eqn:Ek; [discriminate|].
  destruct (lookup (c :: k) (fs s)) as [[| |]|] eqn:E; try discriminate;
  destruct (parent_is_dir (c :: k) (fs s)) as [[]|]; try discriminate;
  intros H; inversion H; subst; split; try reflexivity;
  destruct c; destruct k; try reflexivity; discriminate.
Qed.

Lemma write_ok (p : path) (data : string) (s s' : St) :
  write p data s = (Ok tt, s') ->
  let k := key p in
  let mid := apply_op (OpCreate k) (fs s) in
  lookup k mid = Some (NFile EmptyString) /\
  s' = mkSt (apply_op (OpAppend k data) mid)
            (EvFs (OpAppend k data) :: EvFs (OpCreate k) :: log s) (nreq s) /\
  lookup k (apply_op (OpAppend k data) mid) = Some (NFile data).
Proof.
  unfold write, write_all.
  cbv beta iota delta [bind ret fail lift attempt emit mutate read_fs map_err].
  destruct (file_create p s) as [[[]|e] s1] eqn:E; [|discriminate].
  apply file_create_ok in E. destruct E as [Hi ->].
  intros H. inversion H; subst. cbn zeta.
  assert (Hm : lookup (key p) (apply_op (OpCreate (key p)) (fs s)) = Some (NFile EmptyString))
    by (apply lookup_set_eq; exact Hi).
  split; [exact Hm|]. split; [reflexivity|].
  cbn [apply_op]. cbn [apply_op] in Hm. rewrite Hm. apply lookup_set_eq. exact Hi.
Qed.

Lemma create_version_file_ok (i : Install.t) (v : string) (s s' : St) :
  Install.create_version_file i v s = (Ok tt, s') ->
  let k := key (Install.version_file_path i) in
  let json := Json.to_string (VersionInfo.mk v (Install.repo i)) in
  exists pre mid,
    log s' = EvFs (OpAppend k json) :: EvFs (OpCreate k) :: pre ++ log s /\
    Forall mkdir_event pre /\
    lookup k mid = Some (NFile EmptyString) /\
    fs s' = apply_op (OpAppend k json) mid /\
    lookup k (fs s') = Some (NFile json) /\
    nreq s' = nreq s.
Proof.
  unfold Install.create_version_file.
  cbv beta iota delta [bind ret fail lift attempt emit mutate read_fs map_err].
  destruct (create_dir_all (components (Install.install_path i)) s) as [[[]|e] s1] eqn:E;
    [|discriminate].
  pose proof E as E'. unfold create_dir_all in E'. apply mkdirs_log in E'.
  destruct E' as [pre [Hl Hf]].
  apply create_dir_all_frame in E. destruct E as [Hn _].
  destruct (write (Install.version_file_path i)
                  (Json.to_string (VersionInfo.mk v (Install.repo i))) s1) as [[[]|e] s2] eqn:W;
    [|discriminate].
  intros H. inversion H; subst s2. clear H.
  apply write_ok in W. cbn zeta in W. destruct W as [Hm [-> Hk]].
  cbn zeta. eexists pre, _. cbn [log fs nreq].
  rewrite Hl. split; [reflexivity|]. split; [exact Hf|]. split; [exact Hm|].
  split; [reflexivity|]. split; [exact Hk | exact Hn].
Qed.

End Run.

Module JsonFacts.
Import Json.

Lemma string_body_escape_char (c : ascii) (rest : string) :
  string_body (escape_char c ++ rest)
  = match string_body rest with Some (x, t) => Some (String c x, t) | None => None end.
Proof. destruct c as [[] [] [] [] [] [] [] []]; reflexivity. Qed.

Lemma string_body_escape (s rest : string) :
  string_body ((escape s ++ s1 Str.dq) ++ rest) = Some (s, rest).
Proof.
  induction s as [|c s IH].
  - reflexivity.
  - cbn [escape]. rewrite !StrFacts.append_assoc, string_body_escape_char.
    rewrite <- StrFacts.append_assoc, IH. reflexivity.
Qed.

Lemma string_body_escape' (s rest : string) :
  string_body (escape s ++ String Str.dq rest) = Some (s, rest).
Proof.
  pose proof (string_body_escape s rest) as H.
  rewrite StrFacts.append_assoc in H. exact H.
Qed.

Lemma from_str_to_string (v : VersionInfo.t) : from_str (to_string v) = Ok v.
Proof.
  destruct v as [t r]. unfold to_string, quote. cbn [VersionInfo.tag_name VersionInfo.repo].
  change (escape "tag_name") with "tag_name". change (escape "repo") with "repo".
  pose proof (string_body_escape' t) as Ht. pose proof (string_body_escape' r) as Hr.
  generalize dependent (escape t). generalize dependent (escape r).
  intros er Hr et Ht.
  cbn. rewrite !StrFacts.append_assoc. cbn [s1 append].
  unfold from_str. simpl. rewrite Ht. simpl. rewrite Hr. reflexivity.
Qed.

End JsonFacts.

(** ** Installation runs *)

Module InstallFacts.
Import Fs FsFacts StdFs Run.
Local Open Scope list_scope.

Ltac unf := cbv beta iota delta [bind ret fail lift attempt emit mutate read_fs map_err
  path_exists read_to_string Install.install_asset Install.already_installed
  Install.is_latest_version negb]; cbv beta iota zeta.

Lemma no_upgrade_existing w i asset_name version node s :
  lookup (key (Install.version_file_path i)) (fs s) = Some node ->
  Install.install_asset w i asset_name version false s = (Ok tt, s).
Proof. intros Hl. unf. unfold exists_. rewrite Hl. reflexivity. Qed.

Lemma initial_install_asset_ok w i asset_name version s s1 :
  Install.initial_install_asset w i asset_name version s = (Ok tt, s1) ->
  exists_ (key (Install.version_file_path i)) (fs s1) = true.
Proof.
  unfold Install.initial_install_asset. unf.
  destruct (Downloader.download_asset _ _ _ _ _ _) as [[[]|e] s2]; [|discriminate].
  destruct (if string_dec version "" then _ else _) as [[v|e] s3]; [|discriminate].
  intros H. apply create_version_file_ok in H. cbn zeta in H.
  destruct H as [pre [mid [_ [_ [_ [_ [Hk _]]]]]]]. unfold exists_. now rewrite Hk.
Qed.

Lemma is_latest_version_frame w i s r s1 :
  Install.is_latest_version w i s = (r, s1) -> fs s1 = fs s.
Proof.
  unfold Install.is_latest_version, read_to_string.
  cbv beta iota zeta delta [bind ret fail lift attempt emit mutate read_fs map_err negb].
  destruct (lookup _ (fs s)) as [[| |]|]; try (intros H; inversion H; reflexivity).
  destruct (Json.from_str data) as [vi|e]; try (intros H; inversion H; reflexivity).
  destruct (VersionInfo.repo vi =? Install.repo i); try (intros H; inversion H; reflexivity).
  destruct (Downloader.latest_version w (Install.downloader i) s) as [[v|e] s2] eqn:E;
    apply latest_version_frame in E; destruct E as [Hfs _];
    intros H; inversion H; subst; exact Hfs.
Qed.

Section Retry.
Variable w : World.
Variable d : Downloader.t.
Hypothesis Hbuild : Downloader.build_client w d = Ok tt.

Lemma get_latest_version_state s :
  snd (Downloader.get_latest_version w d s)
  = mkSt (fs s) (EvApi (Downloader.api_url d) :: log s) (S (nreq s)).
Proof.
  unfold Downloader.get_latest_version, Downloader.api_get.
  cbv beta iota zeta delta [bind ret fail lift attempt emit mutate read_fs map_err negb].
  rewrite Hbuild. cbv beta iota zeta.
  destruct (send w (nreq s) (Downloader.api_url d)) as [resp|e]; [|reflexivity].
  destruct (is_success (status resp)); [|reflexivity].
  destruct (Downloader.collect (chunks resp)); reflexivity.
Qed.

Lemma get_latest_version_result s t :
  nreq s = nreq t ->
  fst (Downloader.get_latest_version w d s) = fst (Downloader.get_latest_version w d t).
Proof.
  intros Hn. unfold Downloader.get_latest_version, Downloader.api_get.
  cbv beta iota zeta delta [bind ret fail lift attempt emit mutate read_fs map_err negb].
  rewrite Hbuild. cbv beta iota zeta. rewrite Hn.
  destruct (send w (nreq t) (Downloader.api_url d)) as [resp|e]; [|reflexivity].
  destruct (is_success (status resp)); [|reflexivity].
  destruct (Downloader.collect (chunks resp)); reflexivity.
Qed.

Lemma concat_repeat_snoc {A} (x : list A) k :
  concat (repeat x k) ++ x = x ++ concat (repeat x k).
Proof.
  induction k as [|k IH]; cbn; [now rewrite app_nil_r|].
  now rewrite <- app_assoc, IH.
Qed.

End Retry.

Lemma get_latest_version_no_sleep w d s r s' :
  Downloader.get_latest_version w d s = (r, s') ->
  fs s' = fs s /\ exists new, log s' = new ++ log s /\ filter is_sleep new = [].
Proof.
  unfold Downloader.get_latest_version, Downloader.api_get. intros H. cbn in H.
  destruct (Downloader.build_client w d); cbn in H.
  - destruct (send w (nreq s) (Downloader.api_url d)) as [resp|e]; cbn in H.
    + destruct (negb (is_success (status resp))); cbn in H;
      [|destruct (Downloader.collect (chunks resp)); cbn in H].
      all: inversion H; subst; cbn; split; [reflexivity|];
        exists [EvApi (Downloader.api_url d)]; split; reflexivity.
    + inversion H; subst; cbn; split; [reflexivity|].
      exists [EvApi (Downloader.api_url d)]; split; reflexivity.
  - inversion H; subst; cbn; split; [reflexivity|]. exists []; split; reflexivity.
Qed.

Lemma retry_failing_attempts w d k : forall e0 s,
  (forall e_last s', failing_attempts w d k s e0 = Some (e_last, s') ->
     Downloader.retry w d k e0 s
     = (Err ("unable to fetch latest version: " ++ e_last)%string, s')) /\
  (forall e s', Downloader.retry w d k e0 s = (Err e, s') ->
     exists e_last, e = ("unable to fetch latest version: " ++ e_last)%string /\
       failing_attempts w d k s e0 = Some (e_last, s')).
Proof.
  induction k as [|k IH]; intros e0 s; cbn [failing_attempts Downloader.retry].
  - split.
    + intros e_last s' H. inversion H; subst. reflexivity.
    + intros e s' H. unfold fail in H. inversion H; subst. exists e0. split; reflexivity.
  - cbv beta iota zeta delta [bind ret fail lift attempt emit mutate read_fs map_err].
    destruct (Downloader.get_latest_version w d s) as [[v|e1] s1].
    + split; intros ? ? H; discriminate.
    + exact (IH e1 _).
Qed.

Lemma repeat_snoc {A} (x : A) k : repeat x k ++ [x] = x :: repeat x k.
Proof. induction k as [|k IH]; cbn; [reflexivity | now rewrite IH]. Qed.

Lemma failing_attempts_sleeps w d k : forall e0 s e_last s',
  failing_attempts w d k s e0 = Some (e_last, s') ->
  fs s' = fs s /\ exists new, log s' = new ++ log s /\
    filter is_sleep new = repeat (EvSleep (Downloader.retry_delay d)) k.
Proof.
  induction k as [|k IH]; intros e0 s e_last s' H; cbn [failing_attempts] in H.
  - inversion H; subst. split; [reflexivity|]. exists []. split; reflexivity.
  - destruct (Downloader.get_latest_version w d s) as [[v|e1] s1] eqn:E; [discriminate|].
    apply get_latest_version_no_sleep in E. destruct E as [Hfs [n1 [Hl Hn]]].
    apply IH in H. destruct H as [Hfs' [n2 [Hl' Hn']]]. cbn [fs log] in *.
    split; [congruence|].
    exists (n2 ++ EvSleep (Downloader.retry_delay d) :: n1).
    rewrite Hl', Hl, <- app_assoc. split; [reflexivity|].
    rewrite filter_app. cbn. rewrite Hn, Hn'. apply repeat_snoc.
Qed.

Lemma is_prefix_trans (p q r : path) :
  is_prefix p q = true -> is_prefix q r = true -> is_prefix p r = true.
Proof.
  revert q r. induction p as [|a p IH]; intros [|b q] [|c r]; cbn; try easy.
  destruct (component_eq_dec a b) as [<-|]; [|discriminate].
  destruct (component_eq_dec a c) as [<-|]; [|discriminate]. apply IH.
Qed.

Lemma is_prefix_key_removelast (p : path) : is_prefix (key (removelast p)) (key p) = true.
Proof.
  destruct p as [|x p']; [reflexivity|].
  rewrite (app_removelast_last (l := x :: p') x) at 2 by discriminate.
  rewrite key_app. apply is_prefix_app.
Qed.

Lemma lookup_set_not_prefix (k q : path) n F :
  is_prefix q k = false -> lookup q (set k n F) = lookup q F.
Proof.
  intros H. apply lookup_set_neq. intros ->. now rewrite is_prefix_refl in H.
Qed.

Lemma not_prefix_parent (q p : path) :
  is_prefix q (key p) = false -> is_prefix q (key (removelast p)) = false.
Proof.
  intros H. destruct (is_prefix q (key (removelast p))) eqn:E; [|reflexivity].
  rewrite (is_prefix_trans _ _ _ E (is_prefix_key_removelast p)) in H. discriminate.
Qed.

Lemma file_create_frame (p : path) s r s' :
  file_create p s = (r, s') ->
  forall q, is_prefix q (key p) = false -> lookup q (fs s') = lookup q (fs s).
Proof.
  intros H q Hq. destruct r as [[]|e].
  - apply file_create_ok in H. destruct H as [_ ->]. apply lookup_set_not_prefix, Hq.
  - revert H. unfold file_create.
    cbv beta iota zeta delta [bind ret fail lift attempt emit mutate read_fs map_err].
    destruct (key p) as [|c k]; [intros H; inversion H; reflexivity|].
    destruct (lookup (c :: k) (fs s)) as [[| |]|];
    destruct (parent_is_dir (c :: k) (fs s)) as [[]|]; intros H; inversion H; reflexivity.
Qed.

Lemma write_all_frame (p : path) data s r s' :
  write_all p data s = (r, s') ->
  forall q, is_prefix q (key p) = false -> lookup q (fs s') = lookup q (fs s).
Proof.
  unfold write_all, mutate. intros H q Hq. inversion H; subst. cbn.
  destruct (lookup (key p) (fs s)) as [[| |]|]; try reflexivity.
  apply lookup_set_not_prefix, Hq.
Qed.

Lemma extract_tar_entry_frame outpath kind s r s' :
  Downloader.extract_tar_entry outpath kind s = (r, s') ->
  forall q, is_prefix q (key outpath) = false -> lookup q (fs s') = lookup q (fs s).
Proof.
  intros H q Hq. destruct kind as [|[[link|]|e]|data]; cbn in H.
  - apply create_dir_all_frame in H. now apply H.
  - revert H. unfold symlink.
    cbv beta iota zeta delta [bind ret fail lift attempt emit mutate read_fs map_err].
    destruct (lookup (key outpath) (fs s)) as [n|];
      [intros H; inversion H; reflexivity|].
    destruct (parent_is_dir (key outpath) (fs s)) as [[]|];
      intros H; inversion H; subst; cbn; [apply lookup_set_not_prefix, Hq | reflexivity].
  - inversion H; reflexivity.
  - inversion H; reflexivity.
  - revert H. unfold Downloader.unpack_file.
    cbv beta iota zeta delta [bind].
    assert (Hp : forall s1 r1 s2,
      (match parent outpath with Some par => create_dir_all par | None => ret tt end) s1
      = (r1, s2) -> lookup q (fs s2) = lookup q (fs s1)).
    { intros s1 r1 s2. destruct (parent outpath) as [par|] eqn:Ep.
      - assert (par = removelast outpath)
          by (unfold parent in Ep; destruct outpath as [|[] [|]];
              try discriminate; injection Ep as <-; reflexivity).
        subst par. intros E. apply create_dir_all_frame in E. apply E.
        now apply not_prefix_parent.
      - intros E. inversion E; reflexivity. }
    destruct ((match parent outpath with Some par => create_dir_all par | None => ret tt end) s)
      as [[[]|e] s1] eqn:E1; apply Hp in E1; [|intros H; inversion H; subst; exact E1].
    destruct (file_create outpath s1) as [[[]|e] s2] eqn:E2;
      apply (fun H => file_create_frame _ _ _ _ H q Hq) in E2;
      [|intros H; inversion H; subst; congruence].
    intros H. rewrite (write_all_frame _ _ _ _ _ H q Hq). congruence.
Qed.

Lemma extract_tar_frame dest es s r s' :
  Downloader.extract_tar dest es s = (r, s') ->
  forall q,
    (forall entry, In (Ok entry) es ->
       Downloader.strip_first (components (tpath entry)) <> [] ->
       is_prefix q (key (join dest (Downloader.strip_first (components (tpath entry)))))
       = false) ->
    lookup q (fs s') = lookup q (fs s).
Proof.
  revert s. induction es as [|e es IH]; intros s H q Hq.
  - cbn in H. inversion H; reflexivity.
  - cbn [Downloader.extract_tar] in H.
    cbv beta iota zeta delta [bind lift] in H.
    destruct e as [entry|err]; [|inversion H; reflexivity].
    assert (Hq' : forall entry', In (Ok entry') es ->
       Downloader.strip_first (components (tpath entry')) <> [] ->
       is_prefix q (key (join dest (Downloader.strip_first (components (tpath entry')))))
       = false) by (intros; apply Hq; [right|]; assumption).
    destruct (Downloader.strip_first (components (tpath entry))) as [|c rest] eqn:Es.
    + exact (IH _ H q Hq').
    + assert (Hc : is_prefix q (key (join dest (c :: rest))) = false).
      { rewrite <- Es. apply Hq; [left; reflexivity|]. rewrite Es. discriminate. }
      destruct (Downloader.extract_tar_entry (join dest (c :: rest)) (tkind entry) s)
        as [[[]|err] s1] eqn:E1;
        apply (fun H => extract_tar_entry_frame _ _ _ _ _ H q Hc) in E1.
      * rewrite (IH _ H q Hq'). exact E1.
      * inversion H; subst. exact E1.
Qed.

End InstallFacts.


(* ================================================================== *)
(** * The claims *)

Module Claims.
Import Fs FsFacts StdFs Run InstallFacts.
Local Open Scope list_scope.

(** C1: on the upgrade path ([allow_upgrade = true], version file
    present), a version file naming another repository makes
    [install_asset] fail with the foreign-installation error and leave
    the whole state unchanged: no removal, no write, no request. *)
Lemma install_asset_foreign_repo w i asset_name version raw vi s :
  lookup (key (Install.version_file_path i)) (fs s) = Some (NFile raw) ->
  Json.from_str raw = Ok vi ->
  VersionInfo.repo vi <> Install.repo i ->
  Install.install_asset w i asset_name version true s
  = (Err ("installed version is for a different repository: " ++ VersionInfo.repo vi), s).
Proof.
  intros Hl Hj Hr. unf. unfold exists_. rewrite Hl. unf. rewrite Hl. unf. rewrite Hj. unf.
  apply String.eqb_neq in Hr. rewrite Hr. reflexivity.
Qed.

Lemma install_asset_foreign_repo_witness :
  lookup (key (Install.version_file_path (Install.new "c/d" "out")))
    (fs (Examples.with_state (Install.new "c/d" "out") (VersionInfo.mk "v1" "a/b")))
  = Some (NFile (Json.to_string (VersionInfo.mk "v1" "a/b"))) /\
  Json.from_str (Json.to_string (VersionInfo.mk "v1" "a/b")) = Ok (VersionInfo.mk "v1" "a/b") /\
  Install.install_asset (Examples.online Examples.tarball) (Install.new "c/d" "out")
    "tool.tar.gz" "" true
    (Examples.with_state (Install.new "c/d" "out") (VersionInfo.mk "v1" "a/b"))
  = (Err "installed version is for a different repository: a/b",
     Examples.with_state (Install.new "c/d" "out") (VersionInfo.mk "v1" "a/b")).
Proof.
  assert (H1 : lookup (key (Install.version_file_path (Install.new "c/d" "out")))
    (fs (Examples.with_state (Install.new "c/d" "out") (VersionInfo.mk "v1" "a/b")))
    = Some (NFile (Json.to_string (VersionInfo.mk "v1" "a/b")))) by (vm_compute; reflexivity).
  assert (H2 : Json.from_str (Json.to_string (VersionInfo.mk "v1" "a/b"))
    = Ok (VersionInfo.mk "v1" "a/b")) by (vm_compute; reflexivity).
  split; [exact H1|]. split; [exact H2|].
  exact (install_asset_foreign_repo (Examples.online Examples.tarball) (Install.new "c/d" "out")
    "tool.tar.gz" "" _ _ _ H1 H2 ltac:(discriminate)).
Defined.

(** C2: with [allow_upgrade = false] and a version file present,
    [install_asset] succeeds and leaves the state (filesystem, log of
    requests and mutations) unchanged; after any successful call a
    second one with [allow_upgrade = false] is such a no-op. *)
Lemma install_asset_twice :
  (forall w i asset_name version s,
     exists_ (key (Install.version_file_path i)) (fs s) = true ->
     Install.install_asset w i asset_name version false s = (Ok tt, s)) /\
  (forall w i asset_name version asset_name' version' s s1,
     Install.install_asset w i asset_name version false s = (Ok tt, s1) ->
     Install.install_asset w i asset_name' version' false s1 = (Ok tt, s1)).
Proof.
  split.
  - intros w i a v s He. unf. rewrite He. reflexivity.
  - intros w i a v a' v' s s1 H.
    assert (He : exists_ (key (Install.version_file_path i)) (fs s1) = true).
    { revert H. unf. destruct (exists_ _ (fs s)) eqn:E.
      - intros H. inversion H; subst. exact E.
      - apply initial_install_asset_ok. }
    unf. rewrite He. reflexivity.
Qed.

Lemma install_asset_twice_witness :
  exists s1,
    Install.install_asset (Examples.online Examples.tarball) Examples.i_or
      "pkg.tar.gz" "v1" false Examples.empty = (Ok tt, s1) /\
    Install.install_asset (Examples.online Examples.tarball) Examples.i_or
      "pkg.tar.gz" "v1" false s1 = (Ok tt, s1) /\
    exists_ (key (Install.version_file_path Examples.i_or))
      (fs (Examples.with_state Examples.i_or Examples.v1_or)) = true /\
    Install.install_asset Examples.offline Examples.i_or "pkg.tar.gz" "v1" false
      (Examples.with_state Examples.i_or Examples.v1_or)
    = (Ok tt, Examples.with_state Examples.i_or Examples.v1_or).
Proof.
  eexists. split; [vm_compute; reflexivity|]. split.
  - apply (proj2 install_asset_twice _ _ "pkg.tar.gz" "v1" _ _ Examples.empty).
    vm_compute. reflexivity.
  - assert (He : exists_ (key (Install.version_file_path Examples.i_or))
      (fs (Examples.with_state Examples.i_or Examples.v1_or)) = true)
      by (vm_compute; reflexivity).
    split; [exact He|]. exact (proj1 install_asset_twice _ _ _ _ _ He).
Defined.

(** C3: on the upgrade path with a matching repository, when the
    latest tag equals the stored one, [install_asset] succeeds with the
    filesystem unchanged; the only events are GitHub API requests and
    retry sleeps, so no download and no extraction. *)
Lemma install_asset_current w i asset_name version raw vi s s1 :
  lookup (key (Install.version_file_path i)) (fs s) = Some (NFile raw) ->
  Json.from_str raw = Ok vi ->
  VersionInfo.repo vi = Install.repo i ->
  Downloader.latest_version w (Install.downloader i) s = (Ok (VersionInfo.tag_name vi), s1) ->
  Install.install_asset w i asset_name version true s = (Ok tt, s1) /\
  fs s1 = fs s /\
  exists new, log s1 = new ++ log s /\ Forall net_event new.
Proof.
  intros Hl Hj Hr Hv. pose proof Hv as Hf. apply latest_version_frame in Hf.
  split; [|exact Hf].
  unf. unfold exists_. rewrite Hl. unf. rewrite Hl. unf. rewrite Hj. unf. rewrite Hr, String.eqb_refl. unf. rewrite Hv. unf.
  rewrite String.eqb_refl. reflexivity.
Qed.

Lemma install_asset_current_witness :
  exists s1,
    Downloader.latest_version (Examples.online Examples.tarball)
      (Install.downloader Examples.i_or) (Examples.with_state Examples.i_or Examples.v2_or)
    = (Ok "v2", s1) /\
    lookup (key (Install.version_file_path Examples.i_or))
      (fs (Examples.with_state Examples.i_or Examples.v2_or))
    = Some (NFile (Json.to_string Examples.v2_or)) /\
    Install.install_asset (Examples.online Examples.tarball) Examples.i_or "pkg.tar.gz" ""
      true (Examples.with_state Examples.i_or Examples.v2_or) = (Ok tt, s1).
Proof.
  eexists. split; [vm_compute; reflexivity|].
  assert (H1 : lookup (key (Install.version_file_path Examples.i_or))
      (fs (Examples.with_state Examples.i_or Examples.v2_or))
      = Some (NFile (Json.to_string Examples.v2_or))) by (vm_compute; reflexivity).
  split; [exact H1|].
  eapply (install_asset_current _ _ _ _ _ Examples.v2_or _ _ H1);
    vm_compute; reflexivity.
Defined.

(** C4: once [upgrade_asset] has removed the install directory it
    fails (re-download or version lookup), no version file is left,
    and the next [install_asset] on that directory, whatever
    [allow_upgrade], is the fresh install [initial_install_asset]. *)
Lemma upgrade_failure_leaves_no_state w i old s s1 :
  Install.version_file i = "version.json" ->
  remove_dir_all (components (Install.install_path i)) s = (Ok tt, s1) ->
  exists e s',
    Install.upgrade_asset w i old s = (Err e, s') /\
    lookup (key (Install.version_file_path i)) (fs s') = None /\
    forall asset_name version allow_upgrade,
      Install.install_asset w i asset_name version allow_upgrade s'
      = Install.initial_install_asset w i asset_name version s'.
Proof.
  intros Hv Hrm.
  pose proof (remove_dir_all_ok _ _ _ Hrm) as [Hex [Hfs1 _]].
  assert (Hv1 : lookup (key (Install.version_file_path i)) (fs s1) = None).
  { rewrite version_key, Hfs1 by exact Hv. apply lookup_remove_all.
    - apply is_prefix_app.
    - apply implicit_dir_snoc. }
  assert (Hnp : is_prefix (key (Install.version_file_path i))
                     (key (components (Install.install_path i))) = false).
  { rewrite version_key by exact Hv. apply is_prefix_longer.
    rewrite length_app. cbn [length]. lia. }
  assert (Hend : forall s', lookup (key (Install.version_file_path i)) (fs s') = None ->
     forall asset_name version allow_upgrade,
      Install.install_asset w i asset_name version allow_upgrade s'
      = Install.initial_install_asset w i asset_name version s').
  { intros s' Hs' a v b. unfold Install.install_asset, Install.already_installed, path_exists.
    cbv beta iota delta [bind ret fail lift attempt emit mutate read_fs map_err].
    unfold exists_. rewrite Hs'. reflexivity. }
  unfold Install.upgrade_asset.
  cbv beta iota delta [bind ret fail lift attempt emit mutate read_fs map_err path_exists].
  rewrite Hex, Hrm.
  destruct (Downloader.latest_version w (Install.downloader i) s1) as [[v|e] s2] eqn:E2;
    apply latest_version_frame in E2; destruct E2 as [Hfs2 _].
  - destruct (download_asset_empty_name w (Install.downloader i) v (Install.install_path i) s2)
      as [e [s3 [H3 F3]]].
    rewrite H3. eexists _, s3. split; [reflexivity|].
    assert (Hn3 : lookup (key (Install.version_file_path i)) (fs s3) = None).
    { rewrite F3 by exact Hnp. now rewrite Hfs2. }
    split; [exact Hn3 | apply Hend, Hn3].
  - eexists _, s2. split; [reflexivity|].
    assert (Hn2 : lookup (key (Install.version_file_path i)) (fs s2) = None)
      by now rewrite Hfs2.
    split; [exact Hn2 | apply Hend, Hn2].
Qed.

Lemma upgrade_failure_leaves_no_state_witness :
  exists s1,
    remove_dir_all (components (Install.install_path Examples.i_or))
      (Examples.with_state Examples.i_or Examples.v1_or) = (Ok tt, s1) /\
    exists e s',
      Install.upgrade_asset (Examples.online Examples.tarball) Examples.i_or Examples.v1_or
        (Examples.with_state Examples.i_or Examples.v1_or) = (Err e, s') /\
      lookup (key (Install.version_file_path Examples.i_or)) (fs s') = None /\
      forall asset_name version allow_upgrade,
        Install.install_asset (Examples.online Examples.tarball) Examples.i_or
          asset_name version allow_upgrade s'
        = Install.initial_install_asset (Examples.online Examples.tarball) Examples.i_or
            asset_name version s'.
Proof.
  eexists. split; [vm_compute; reflexivity|].
  eapply upgrade_failure_leaves_no_state; [reflexivity | vm_compute; reflexivity].
Defined.

(** C5: the default retry count is 3.  When the [retry_count] attempts
    of [get_latest_version] that a run of [latest_version] makes all
    fail, whatever the failure (the client cannot be built, the request
    fails, a non-2xx status, a bad body), [latest_version] makes exactly
    those [retry_count] attempts, each followed by a sleep of
    [retry_delay] (no other sleep), leaves the filesystem unchanged and
    fails with [unable to fetch latest version: ] followed by the error
    of the last attempt (empty when there is no attempt); and it fails
    only in that case. *)
Lemma latest_version_all_attempts_fail :
  (forall repo, Downloader.retry_count (Downloader.new repo) = 3) /\
  (forall w d s e_last s',
     failing_attempts w d (Downloader.retry_count d) s EmptyString = Some (e_last, s') ->
     Downloader.latest_version w d s
       = (Err ("unable to fetch latest version: " ++ e_last)%string, s') /\
     fs s' = fs s /\
     exists new, log s' = new ++ log s /\
       filter is_sleep new
       = repeat (EvSleep (Downloader.retry_delay d)) (Downloader.retry_count d)) /\
  (forall w d s e s',
     Downloader.latest_version w d s = (Err e, s') ->
     exists e_last, e = ("unable to fetch latest version: " ++ e_last)%string /\
       failing_attempts w d (Downloader.retry_count d) s EmptyString = Some (e_last, s')).
Proof.
  split; [reflexivity|]. split.
  - intros w d s e_last s' H. split.
    + exact (proj1 (retry_failing_attempts w d _ _ _) _ _ H).
    + exact (failing_attempts_sleeps _ _ _ _ _ _ _ H).
  - intros w d s e s' H. exact (proj2 (retry_failing_attempts w d _ _ _) _ _ H).
Qed.

Lemma latest_version_all_attempts_fail_witness :
  let d := Downloader.new "o/r" in
  let dp := Downloader.with_config "o/r" 3 3 (Some "socks9://proxy") in
  let url := "https://api.github.com/repos/o/r/releases/latest" in
  let s1 := mkSt [] [EvSleep 3; EvApi url; EvSleep 3; EvApi url; EvSleep 3; EvApi url] 3 in
  let s2 := mkSt [] [EvSleep 3; EvSleep 3; EvSleep 3] 0 in
  fst (Downloader.get_latest_version (MoreExamples.flaky 3) d (mkSt [] [] 3)) = Ok "v2" /\
  failing_attempts (MoreExamples.flaky 3) d 3 Examples.empty EmptyString
    = Some ("error sending request for url", s1) /\
  Downloader.latest_version (MoreExamples.flaky 3) d Examples.empty
    = (Err ("unable to fetch latest version: " ++ "error sending request for url")%string, s1) /\
  failing_attempts MoreExamples.bad_proxy dp 3 Examples.empty EmptyString
    = Some ("builder error: unknown proxy scheme", s2) /\
  Downloader.latest_version MoreExamples.bad_proxy dp Examples.empty
    = (Err ("unable to fetch latest version: " ++ "builder error: unknown proxy scheme")%string, s2).
Proof.
  intros d dp url s1 s2.
  assert (H1 : failing_attempts (MoreExamples.flaky 3) d 3 Examples.empty EmptyString
                 = Some ("error sending request for url", s1)) by (vm_compute; reflexivity).
  assert (H2 : failing_attempts MoreExamples.bad_proxy dp 3 Examples.empty EmptyString
                 = Some ("builder error: unknown proxy scheme", s2))
    by (vm_compute; reflexivity).
  split; [vm_compute; reflexivity|]. split; [exact H1|]. split.
  - exact (proj1 (proj1 (proj2 latest_version_all_attempts_fail)
                    (MoreExamples.flaky 3) d Examples.empty _ _ H1)).
  - split; [exact H2|].
    exact (proj1 (proj1 (proj2 latest_version_all_attempts_fail)
                    MoreExamples.bad_proxy dp Examples.empty _ _ H2)).
Defined.

(** C6, counterexample: writing the version file is a create/truncate
    followed by a write, with no rename.  After the first two of the
    three mutations of a run of [create_version_file], [version.json]
    exists and is empty: [install_asset] with [allow_upgrade = false]
    accepts it as an installation, and reading it back fails. *)
Lemma version_file_not_atomic_example :
  let i := Install.new "o/r" "out" in
  let k := key (Install.version_file_path i) in
  let (r, s') := Install.create_version_file i "v2" Examples.empty in
  let ops := fs_ops (log s') in
  let mid := mkSt (replay [] (firstn 2 ops)) [] 0 in
  r = Ok tt /\
  ops = [OpMkdir [Normal "out"]; OpCreate k;
         OpAppend k (Json.to_string (VersionInfo.mk "v2" "o/r"))] /\
  lookup k (fs mid) = Some (NFile EmptyString) /\
  Install.install_asset Examples.offline i "tool.tar.gz" "v2" false mid = (Ok tt, mid) /\
  exists e, Install.get_installed_version i mid = (Err e, mid).
Proof.
  vm_compute. split; [reflexivity|]. split; [reflexivity|]. split; [reflexivity|].
  split; [reflexivity|]. eexists. reflexivity.
Qed.

(** C6, amended: a successful [create_version_file] creates missing
    directories, then truncates [version.json] in place to an empty file
    and appends the JSON record to it; between the two last mutations
    the empty file exists and [install_asset] with
    [allow_upgrade = false] already treats the directory as installed. *)
Lemma version_file_written_in_place i version s s' :
  Install.create_version_file i version s = (Ok tt, s') ->
  let k := key (Install.version_file_path i) in
  let json := Json.to_string (VersionInfo.mk version (Install.repo i)) in
  exists pre mid,
    log s' = EvFs (OpAppend k json) :: EvFs (OpCreate k) :: pre ++ log s /\
    Forall mkdir_event pre /\
    lookup k mid = Some (NFile EmptyString) /\
    fs s' = apply_op (OpAppend k json) mid /\
    (forall w asset_name version' l n,
       Install.install_asset w i asset_name version' false (mkSt mid l n)
       = (Ok tt, mkSt mid l n)).
Proof.
  intros H. apply create_version_file_ok in H. cbn zeta in *.
  destruct H as [pre [mid [Hl [Hf [Hm [Hfs _]]]]]].
  exists pre, mid. repeat split; try assumption.
  intros w a v l n. apply (no_upgrade_existing w i a v _ (mkSt mid l n) Hm).
Qed.

Lemma version_file_written_in_place_witness :
  exists s',
    Install.create_version_file Examples.i_or "v2" Examples.empty = (Ok tt, s') /\
    exists pre mid,
      log s' = EvFs (OpAppend [Normal "out"; Normal "version.json"]
                       (Json.to_string Examples.v2_or))
               :: EvFs (OpCreate [Normal "out"; Normal "version.json"]) :: pre /\
      lookup [Normal "out"; Normal "version.json"] mid = Some (NFile EmptyString).
Proof.
  eexists. split; [vm_compute; reflexivity|].
  edestruct (version_file_written_in_place Examples.i_or "v2" Examples.empty)
    as [pre [mid [Hl [_ [Hm _]]]]]; [vm_compute; reflexivity|].
  exists pre, mid. split; [rewrite Hl, app_nil_r; reflexivity | exact Hm].
Defined.

(** C7: [upgrade_asset] never succeeds: it asks for the asset with an
    empty name, i.e. the URL [.../releases/download/<tag>/], which is
    neither a tarball nor a zip, and the raw download into the install
    directory itself fails.  So [install_asset] on the upgrade path only
    succeeds when it changes nothing; e.g. an upgrade from [v1] to [v2]
    requests [.../download/v2/] and fails with [Is a directory]. *)
Lemma upgrade_path_never_installs :
  (forall w i old_info s, exists e s', Install.upgrade_asset w i old_info s = (Err e, s')) /\
  (forall w i asset_name version s s',
     exists_ (key (Install.version_file_path i)) (fs s) = true ->
     Install.install_asset w i asset_name version true s = (Ok tt, s') -> fs s' = fs s) /\
  (let i := Install.new "o/r" "out" in
   exists s',
     Install.install_asset (Examples.online [Examples.pkg_dir; Examples.pkg_tool]) i
       "tool.tar.gz" "v1" true (Examples.with_state i (VersionInfo.mk "v1" "o/r"))
     = (Err ("error downloading asset: " ++ EISDIR), s') /\
     In (EvGet "https://github.com/o/r/releases/download/v2/") (log s') /\
     lookup (key (Install.version_file_path i)) (fs s') = None).
Proof.
  split; [exact upgrade_asset_fails|]. split.
  - intros w i a v s s' He.
    cbv beta iota zeta delta [bind ret fail lift attempt emit mutate read_fs map_err
      path_exists Install.install_asset Install.already_installed negb].
    rewrite He.
    destruct (Install.is_latest_version w i s) as [[[[] vi]|e] s1] eqn:E;
      apply is_latest_version_frame in E.
    + intros H. inversion H; subst. exact E.
    + destruct (upgrade_asset_fails w i vi s1) as [e [s2 H2]]. rewrite H2. discriminate.
    + discriminate.
  - cbv zeta. eexists. split; [vm_compute; reflexivity|]. split; vm_compute.
    + repeat (first [left; reflexivity | right]).
    + reflexivity.
Qed.

Lemma upgrade_path_never_installs_witness :
  exists s',
    exists_ (key (Install.version_file_path Examples.i_or))
      (fs (Examples.with_state Examples.i_or Examples.v2_or)) = true /\
    Install.install_asset (Examples.online Examples.tarball) Examples.i_or "pkg.tar.gz" ""
      true (Examples.with_state Examples.i_or Examples.v2_or) = (Ok tt, s') /\
    fs s' = fs (Examples.with_state Examples.i_or Examples.v2_or).
Proof.
  assert (He : exists_ (key (Install.version_file_path Examples.i_or))
      (fs (Examples.with_state Examples.i_or Examples.v2_or)) = true)
    by (vm_compute; reflexivity).
  eexists. split; [exact He|]. split; [vm_compute; reflexivity|].
  apply (proj1 (proj2 upgrade_path_never_installs) (Examples.online Examples.tarball)
    _ "pkg.tar.gz" "" _ _ He).
  vm_compute. reflexivity.
Defined.

(** C8: tar extraction only changes paths below
    [dest] joined with an entry path without its first component, taking
    only entries whose stripped path is not empty; entries with an empty
    stripped path are skipped; extracting [pkg-1.0/bin/tool] and
    [pkg-1.0/] to [D] yields exactly [D], [D/bin] and the file
    [D/bin/tool], and no [D/pkg-1.0]. *)
Lemma tar_extraction_strips_top_level :
  (forall dest es s r s',
     Downloader.extract_tar dest es s = (r, s') ->
     forall q,
       (forall entry, In (Ok entry) es ->
          Downloader.strip_first (components (tpath entry)) <> [] ->
          is_prefix q (key (join dest (Downloader.strip_first (components (tpath entry)))))
          = false) ->
       lookup q (fs s') = lookup q (fs s)) /\
  (forall dest entry es,
     Downloader.strip_first (components (tpath entry)) = [] ->
     Downloader.extract_tar dest (Ok entry :: es) = Downloader.extract_tar dest es) /\
  (forall es, es = [Examples.pkg_tool; Examples.pkg_dir] \/
              es = [Examples.pkg_dir; Examples.pkg_tool] ->
     exists s',
       Downloader.download_and_extract_tar_gz (Examples.online es) (Downloader.new "o/r")
         "https://github.com/o/r/releases/download/v1/pkg-1.0.tar.gz" "D" Examples.empty
       = (Ok tt, s') /\
       fs s' = [([Normal "D"; Normal "bin"; Normal "tool"], NFile "bin");
                ([Normal "D"; Normal "bin"], NDir);
                ([Normal "D"], NDir)] /\
       lookup [Normal "D"; Normal "pkg-1.0"] (fs s') = None).
Proof.
  split; [exact extract_tar_frame|]. split.
  - intros dest entry es H. cbn [Downloader.extract_tar].
    cbv beta iota zeta delta [bind lift]. rewrite H. reflexivity.
  - intros es [-> | ->]; eexists;
      (split; [vm_compute; reflexivity | split; vm_compute; reflexivity]).
Qed.

Lemma tar_extraction_strips_top_level_witness :
  Downloader.strip_first (components (tpath {| tpath := "pkg-1.0/"; tkind := TDir |})) = [] /\
  exists s',
    Downloader.extract_tar [Normal "D"] Examples.tarball Examples.empty = (Ok tt, s') /\
    lookup [Normal "D"; Normal "pkg-1.0"] (fs s') = None /\
    Downloader.extract_tar [Normal "D"] Examples.tarball
    = Downloader.extract_tar [Normal "D"] [Examples.pkg_tool] /\
    exists s'',
      Downloader.download_and_extract_tar_gz (Examples.online [Examples.pkg_tool; Examples.pkg_dir])
        (Downloader.new "o/r") "https://github.com/o/r/releases/download/v1/pkg-1.0.tar.gz" "D"
        Examples.empty = (Ok tt, s'') /\
      fs s'' = [([Normal "D"; Normal "bin"; Normal "tool"], NFile "bin");
                ([Normal "D"; Normal "bin"], NDir); ([Normal "D"], NDir)].
Proof.
  assert (Hs : Downloader.strip_first (components (tpath {| tpath := "pkg-1.0/"; tkind := TDir |}))
    = []) by (vm_compute; reflexivity).
  split; [exact Hs|].
  eexists. split; [vm_compute; reflexivity|]. split.
  - erewrite (proj1 tar_extraction_strips_top_level [Normal "D"] Examples.tarball Examples.empty);
      [reflexivity | vm_compute; reflexivity |].
    intros entry Hin.
    unfold Examples.tarball, Examples.pkg_dir, Examples.pkg_tool in Hin.
    destruct Hin as [Hin|[Hin|[]]]; injection Hin as <-; vm_compute;
      [intros []; reflexivity | reflexivity].
  - split; [exact (proj1 (proj2 tar_extraction_strips_top_level) [Normal "D"] _ _ Hs)|].
    destruct (proj2 (proj2 tar_extraction_strips_top_level) [Examples.pkg_tool; Examples.pkg_dir]
                (or_introl eq_refl)) as [s'' [H [Hf _]]].
    exists s''. split; [exact H | exact Hf].
Defined.

(** C9: after a successful [create_version_file i version],
    [get_installed_version i] returns [version] and the configured
    repository; without a version file it fails with the read error. *)
Lemma version_file_roundtrip :
  (forall i version s s',
     Install.create_version_file i version s = (Ok tt, s') ->
     Install.get_installed_version i s' = (Ok (VersionInfo.mk version (Install.repo i)), s')) /\
  (forall i s,
     lookup (key (Install.version_file_path i)) (fs s) = None ->
     Install.get_installed_version i s = (Err ("error reading version info file: " ++ ENOENT), s)).
Proof.
  split.
  - intros i v s s' H. apply create_version_file_ok in H. cbn zeta in H.
    destruct H as [pre [mid [_ [_ [_ [_ [Hk _]]]]]]].
    unfold Install.get_installed_version, read_to_string.
    cbv beta iota zeta delta [bind ret fail lift attempt emit mutate read_fs map_err].
    rewrite Hk. cbv beta iota zeta. rewrite JsonFacts.from_str_to_string. reflexivity.
  - intros i s H. unfold Install.get_installed_version, read_to_string.
    cbv beta iota zeta delta [bind ret fail lift attempt emit mutate read_fs map_err].
    rewrite H. reflexivity.
Qed.

Lemma version_file_roundtrip_witness :
  exists s',
    Install.create_version_file (Install.new "owner/repo" "dir") "v2.0.0" Examples.empty
      = (Ok tt, s') /\
    Install.get_installed_version (Install.new "owner/repo" "dir") s'
      = (Ok (VersionInfo.mk "v2.0.0" "owner/repo"), s') /\
    Install.get_installed_version (Install.new "owner/repo" "dir") Examples.empty
      = (Err ("error reading version info file: " ++ ENOENT), Examples.empty).
Proof.
  eexists. split; [vm_compute; reflexivity|]. split.
  - apply (proj1 version_file_roundtrip (Install.new "owner/repo" "dir") "v2.0.0"
             Examples.empty).
    vm_compute. reflexivity.
  - apply (proj2 version_file_roundtrip). vm_compute. reflexivity.
Defined.

(** C10: with [allow_upgrade = false], any object at the version file
    path makes [install_asset] succeed with the state unchanged,
    whatever its contents (unparsable, other repository). *)
Lemma install_asset_no_upgrade_existing w i asset_name version node s :
  lookup (key (Install.version_file_path i)) (fs s) = Some node ->
  Install.install_asset w i asset_name version false s = (Ok tt, s).
Proof. apply no_upgrade_existing. Qed.

Lemma install_asset_no_upgrade_existing_witness :
  lookup (key (Install.version_file_path Examples.i_or))
    (fs (Examples.with_raw Examples.i_or "garbage")) = Some (NFile "garbage") /\
  Install.install_asset Examples.offline Examples.i_or "pkg.tar.gz" "v1" false
    (Examples.with_raw Examples.i_or "garbage")
  = (Ok tt, Examples.with_raw Examples.i_or "garbage") /\
  lookup (key (Install.version_file_path Examples.i_or))
    (fs (Examples.with_state Examples.i_or (VersionInfo.mk "v1" "a/b")))
  = Some (NFile (Json.to_string (VersionInfo.mk "v1" "a/b"))) /\
  Install.install_asset Examples.offline Examples.i_or "pkg.tar.gz" "v1" false
    (Examples.with_state Examples.i_or (VersionInfo.mk "v1" "a/b"))
  = (Ok tt, Examples.with_state Examples.i_or (VersionInfo.mk "v1" "a/b")).
Proof.
  assert (H1 : lookup (key (Install.version_file_path Examples.i_or))
    (fs (Examples.with_raw Examples.i_or "garbage")) = Some (NFile "garbage"))
    by (vm_compute; reflexivity).
  assert (H2 : lookup (key (Install.version_file_path Examples.i_or))
    (fs (Examples.with_state Examples.i_or (VersionInfo.mk "v1" "a/b")))
    = Some (NFile (Json.to_string (VersionInfo.mk "v1" "a/b")))) by (vm_compute; reflexivity).
  split; [exact H1|]. split; [exact (install_asset_no_upgrade_existing _ _ _ _ _ _ H1)|].
  split; [exact H2 | exact (install_asset_no_upgrade_existing _ _ _ _ _ _ H2)].
Defined.

End Claims.

(** ** The fetch pipeline *)

Module ArchiveFacts.
Import Fs FsFacts StdFs Run InstallFacts.
Local Open Scope list_scope.
Lemma bind_assoc {A B C} (m : M A) (k : A -> M B) (h : B -> M C) s :
  bind (bind m k) h s = bind m (fun a => bind (k a) h) s.
Proof. unfold bind. destruct (m s) as [[a|e] s1]; reflexivity. Qed.

Lemma bind_ext {A B} (m : M A) (k k' : A -> M B) s :
  (forall a s1, k a s1 = k' a s1) -> bind m k s = bind m k' s.
Proof. intros H. unfold bind. destruct (m s) as [[a|e] s1]; [apply H | reflexivity]. Qed.

Lemma extract_zip_app dest es1 es2 s :
  Downloader.extract_zip dest (es1 ++ es2) s
  = (Downloader.extract_zip dest es1 ;; Downloader.extract_zip dest es2) s.
Proof.
  revert s. induction es1 as [|e es1 IH]; intros s; [reflexivity|].
  cbn [app Downloader.extract_zip]. rewrite bind_assoc.
  apply bind_ext. intros file s1. rewrite bind_assoc.
  apply bind_ext. intros [] s2. apply IH.
Qed.

Lemma extract_tar_app dest es1 es2 s :
  Downloader.extract_tar dest (es1 ++ es2) s
  = (Downloader.extract_tar dest es1 ;; Downloader.extract_tar dest es2) s.
Proof.
  revert s. induction es1 as [|e es1 IH]; intros s; [reflexivity|].
  cbn [app Downloader.extract_tar]. rewrite bind_assoc.
  apply bind_ext. intros entry s1.
  destruct (Downloader.strip_first (components (tpath entry))) as [|c l].
  - apply IH.
  - rewrite bind_assoc. apply bind_ext. intros [] s2. apply IH.
Qed.

Lemma bind_err {A B} (m : M A) (k : A -> M B) s e s1 :
  m s = (Err e, s1) -> bind m k s = (Err e, s1).
Proof. intros H. unfold bind. now rewrite H. Qed.

Lemma then_lift_err {B} (m : M unit) e (k : string -> M B) s :
  exists e' s', (m ;; (x <- lift (Err e) ;; k x)) s = (Err e', s').
Proof. unfold bind, lift. destruct (m s) as [[[]|e'] s1]; eauto. Qed.

Lemma zip_bad_step dest bad s :
  (exists e, bad = Err e) \/
  (exists name e, bad = Ok {| zname := name; zdata := Err e |} /\
                  Str.ends_with "/" name = false) ->
  exists e' s', forall l, Downloader.extract_zip dest (bad :: l) s = (Err e', s').
Proof.
  intros [[e ->]|[name [e [-> Hn]]]].
  - exists e, s. reflexivity.
  - cbn [Downloader.extract_zip]. unfold bind at 1, lift at 1. cbv beta iota.
    cbn [zname zdata]. rewrite Hn.
    set (o := join dest (Downloader.mangled_name name)).
    set (P := match parent o with Some par => create_dir_all par | None => ret tt end).
    destruct (then_lift_err (P ;; file_create o) e (write_all o) s) as [e' [s' H]].
    rewrite bind_assoc in H.
    exists e', s'. intros l. apply bind_err. exact H.
Qed.







Lemma split_cons sep s : exists f r, Str.split sep s = f :: r.
Proof.
  destruct s as [|c s]; cbn; [eauto|].
  destruct (Str.split sep s) as [|p ps]; [eauto|].
  destruct (Ascii.eqb c sep); eauto.
Qed.

Lemma key_body (l : list string) :
  key (flat_map body_component l) = flat_map body_component l.
Proof.
  unfold key. apply forallb_filter_id. apply forallb_forall.
  intros c Hc. apply in_flat_map in Hc. destruct Hc as [x [_ Hx]].
  unfold body_component in Hx.
  destruct (string_dec x ""); [destruct Hx|].
  destruct (string_dec x "."); [destruct Hx|].
  destruct (string_dec x ".."); destruct Hx as [<-|[]]; reflexivity.
Qed.

End ArchiveFacts.

Module DownloadFacts.
Import Fs FsFacts StdFs Run InstallFacts.

Lemma string_concat_cons (a : string) l : String.concat "" (a :: l) = a ++ String.concat "" l.
Proof. destruct l; cbn; [now rewrite StrFacts.append_empty_r | reflexivity]. Qed.

Lemma write_all_file p c pre s r s' :
  lookup (key p) (fs s) = Some (NFile pre) -> write_all p c s = (r, s') ->
  r = Ok tt /\ lookup (key p) (fs s') = Some (NFile (pre ++ c)) /\ nreq s' = nreq s.
Proof.
  intros Hl H. unfold write_all, mutate in H. inversion H; subst. cbn. rewrite Hl.
  split; [reflexivity|]. split; [|reflexivity]. apply lookup_set_eq.
  destruct (implicit_dir (key p)) eqn:E; [|reflexivity].
  unfold lookup in Hl. rewrite E in Hl. discriminate.
Qed.

Lemma write_chunks_file p cs : forall pre s r s',
  lookup (key p) (fs s) = Some (NFile pre) ->
  Downloader.write_chunks p cs s = (r, s') ->
  (forall body, Downloader.collect cs = Ok body ->
     r = Ok tt /\ lookup (key p) (fs s') = Some (NFile (pre ++ body))) /\
  (forall l e rest, cs = (map Ok l ++ Err e :: rest)%list ->
     r = Err e /\ lookup (key p) (fs s') = Some (NFile (pre ++ String.concat "" l))).
Proof.
  induction cs as [|c cs IH]; intros pre s r s' Hl H.
  - cbn in H. inversion H; subst. split.
    + intros body Hb. cbn in Hb. inversion Hb; subst. now rewrite StrFacts.append_empty_r.
    + intros [|x l] e rest Hc; discriminate.
  - destruct c as [c|e0].
    + cbn [Downloader.write_chunks] in H. unfold bind in H.
      destruct (write_all p c s) as [r1 s1] eqn:W.
      apply (write_all_file _ _ pre) in W; [|exact Hl]. destruct W as [-> [Hl1 _]].
      destruct (IH _ _ _ _ Hl1 H) as [H1 H2]. split.
      * intros body Hb. cbn in Hb. destruct (Downloader.collect cs) as [b|e]; [|discriminate].
        inversion Hb; subst. destruct (H1 b eq_refl) as [-> Hf].
        now rewrite StrFacts.append_assoc in Hf.
      * intros [|x l] e rest Hc; [discriminate|]. injection Hc as -> Hc.
        destruct (H2 l e rest Hc) as [-> Hf]. rewrite string_concat_cons.
        now rewrite StrFacts.append_assoc in Hf.
    + cbn in H. inversion H; subst. split.
      * intros body Hb. discriminate.
      * intros [|x l] e rest Hc; [|discriminate]. injection Hc as -> _.
        cbn. now rewrite StrFacts.append_empty_r.
Qed.

Lemma write_chunks_result p cs s r s' :
  Downloader.write_chunks p cs s = (r, s') ->
  r = match Downloader.collect cs with Ok _ => Ok tt | Err e => Err e end.
Proof.
  revert s. induction cs as [|[c|e0] cs IH]; intros s H.
  - cbn in H. now inversion H.
  - cbn [Downloader.write_chunks] in H. unfold bind, write_all, mutate in H.
    apply IH in H. cbn. destruct (Downloader.collect cs); exact H.
  - cbn in H. now inversion H.
Qed.

Lemma file_create_succeeds p s :
  key p <> [] -> lookup (key p) (fs s) <> Some NDir ->
  lookup (removelast (key p)) (fs s) = Some NDir ->
  file_create p s
  = (Ok tt, mkSt (apply_op (OpCreate (key p)) (fs s)) (EvFs (OpCreate (key p)) :: log s) (nreq s)).
Proof.
  intros Hk Hl Hp. unfold file_create.
  cbv beta iota zeta delta [bind ret fail lift mutate read_fs].
  destruct (key p) as [|c k]; [contradiction|].
  destruct (lookup (c :: k) (fs s)) as [[| |]|]; [contradiction| | |];
    unfold parent_is_dir; rewrite Hp; reflexivity.
Qed.

End DownloadFacts.

Module NetFacts.
Import Fs FsFacts StdFs Run InstallFacts.
Local Open Scope list_scope.

Lemma retry_first_success w d v k : forall m e0 s,
  Downloader.build_client w d = Ok tt ->
  k < m ->
  (forall i, i < k -> exists e,
     fst (Downloader.get_latest_version w d (mkSt (fs s) (log s) (nreq s + i))) = Err e) ->
  fst (Downloader.get_latest_version w d (mkSt (fs s) (log s) (nreq s + k))) = Ok v ->
  Downloader.retry w d m e0 s
  = (Ok v, mkSt (fs s)
              (EvApi (Downloader.api_url d)
                 :: concat (repeat [EvSleep (Downloader.retry_delay d);
                                    EvApi (Downloader.api_url d)] k) ++ log s)
              (nreq s + S k)).
Proof.
  induction k as [|k IH]; intros [|m] e0 s Hb Hk Hf Hv; try lia.
  - cbn [Downloader.retry].
    cbv beta iota zeta delta [bind ret fail lift attempt emit mutate read_fs map_err].
    pose proof (get_latest_version_state w d Hb s) as Hs.
    rewrite (get_latest_version_result w d Hb _ s) in Hv by (cbn; lia).
    destruct (Downloader.get_latest_version w d s) as [r s1]. cbn in Hs, Hv. subst.
    cbn. f_equal. f_equal. lia.
  - cbn [Downloader.retry].
    cbv beta iota zeta delta [bind ret fail lift attempt emit mutate read_fs map_err].
    pose proof (get_latest_version_state w d Hb s) as Hs.
    destruct (Hf 0 ltac:(lia)) as [e1 He1].
    rewrite (get_latest_version_result w d Hb _ s) in He1 by (cbn; lia).
    destruct (Downloader.get_latest_version w d s) as [r s1]. cbn in Hs, He1. subst.
    rewrite (IH m e1); cbn [fs log nreq].
    + f_equal. f_equal; [|lia]. f_equal. cbn [repeat concat].
      rewrite <- concat_repeat_snoc, <- app_assoc. reflexivity.
    + exact Hb.
    + lia.
    + intros i Hi. destruct (Hf (S i) ltac:(lia)) as [e He]. exists e.
      rewrite <- He. apply get_latest_version_result; [exact Hb|]. cbn. lia.
    + rewrite <- Hv. apply get_latest_version_result; [exact Hb|]. cbn. lia.
Qed.

Lemma get_latest_version_nreq w d s r s' :
  Downloader.get_latest_version w d s = (r, s') -> nreq s' <= S (nreq s).
Proof.
  unfold Downloader.get_latest_version, Downloader.api_get.
  cbv beta iota zeta delta [bind ret fail lift negb].
  destruct (Downloader.build_client w d); [|intros H; inversion H; cbn; lia].
  destruct (send w (nreq s) (Downloader.api_url d)) as [resp|e];
    [|intros H; inversion H; cbn; lia].
  destruct (is_success (status resp)); [|intros H; inversion H; cbn; lia].
  destruct (Downloader.collect (chunks resp)); intros H; inversion H; cbn; lia.
Qed.

Lemma retry_nreq w d k e0 s r s' :
  Downloader.retry w d k e0 s = (r, s') -> nreq s' <= nreq s + k.
Proof.
  revert e0 s. induction k as [|k IH]; intros e0 s H; cbn [Downloader.retry] in H.
  - unfold fail in H. inversion H. lia.
  - cbv beta iota zeta delta [bind ret fail lift attempt emit mutate read_fs map_err] in H.
    destruct (Downloader.get_latest_version w d s) as [r1 s1] eqn:E.
    apply get_latest_version_nreq in E.
    destruct r1 as [v|e]; [inversion H; subst; lia|].
    apply IH in H. cbn in H. lia.
Qed.

Lemma initial_install_records v i a w s s' :
  v <> "" ->
  Install.initial_install_asset w i a v s = (Ok tt, s') ->
  Install.get_installed_version i s' = (Ok (VersionInfo.mk v (Install.repo i)), s').
Proof.
  intros Hv. unfold Install.initial_install_asset.
  unfold bind at 1. destruct (map_err _ _ s) as [[[]|e] s1]; [|discriminate].
  destruct (string_dec v "") as [|_]; [contradiction|].
  unfold bind, ret. intros H. apply create_version_file_ok in H. cbn zeta in H.
  destruct H as [_ [_ [_ [_ [_ [_ [Hk _]]]]]]].
  unfold Install.get_installed_version, read_to_string.
  cbv beta iota zeta delta [bind ret fail lift read_fs map_err]. rewrite Hk.
  now rewrite JsonFacts.from_str_to_string.
Qed.

Lemma release_assets_frame w x d s r s' :
  Release.get_latest_release_assets w x d s = (r, s') ->
  fs s' = fs s /\ nreq s' <= S (nreq s) /\
  (log s' = log s \/ log s' = EvApi (Downloader.api_url d) :: log s).
Proof.
  unfold Release.get_latest_release_assets, Downloader.api_get.
  cbv beta iota zeta delta [bind ret fail lift negb].
  destruct (Downloader.build_client w d);
    [|intros H; inversion H; subst; cbn; auto].
  destruct (send w (nreq s) (Downloader.api_url d)) as [resp|e];
    [|intros H; inversion H; subst; cbn; auto].
  destruct (is_success (status resp)); [|intros H; inversion H; subst; cbn; auto].
  destruct (Downloader.collect (chunks resp));
    [destruct (release_assets x _)|]; intros H; inversion H; subst; cbn; auto.
Qed.

End NetFacts.

(** ** Properties of the fetch pipeline and the builder API *)

Module Extras.
Import Fs FsFacts StdFs Run InstallFacts ArchiveFacts DownloadFacts NetFacts.



(** X2: after a successful zip extraction whose last entry is [name],
    the node at [dest] joined with the mangled [name] is a directory if
    [name] ends in [/], and otherwise a file holding that entry's data. *)
Lemma zip_last_entry dest es name data s s' :
  Downloader.extract_zip dest (es ++ [Ok {| zname := name; zdata := data |}])%list s
    = (Ok tt, s') ->
  let k := key (join dest (Downloader.mangled_name name)) in
  if Str.ends_with "/" name then lookup k (fs s') = Some NDir
  else exists d, data = Ok d /\ lookup k (fs s') = Some (NFile d).
Proof.
  rewrite extract_zip_app. unfold bind at 1.
  destruct (Downloader.extract_zip dest es s) as [[[]|e] s1]; [|discriminate].
  cbn [Downloader.extract_zip]. unfold bind at 1, lift at 1. cbv beta iota. cbn [zname zdata].
  set (o := join dest (Downloader.mangled_name name)). cbv zeta.
  destruct (Str.ends_with "/" name).
  - unfold bind. destruct (create_dir_all o s1) as [[[]|e] s2] eqn:E; [|discriminate].
    cbn [Downloader.extract_zip ret]. intros H. inversion H; subst.
    now apply create_dir_all_ok in E.
  - rewrite bind_assoc. unfold bind at 1.
    destruct ((match parent o with Some par => create_dir_all par | None => ret tt end) s1)
      as [[[]|e] s2]; [|discriminate].
    destruct data as [d|e]; [|unfold bind, lift;
      destruct (file_create o s2) as [[[]|e'] s3]; discriminate].
    change (bind (file_create o) (fun _ => bind (lift (Ok d)) (fun data => write_all o data)))
      with (write o d).
    unfold bind at 1. destruct (write o d s2) as [[[]|e] s3] eqn:W; [|discriminate].
    cbn [ret]. intros H. inversion H; subst. apply write_ok in W. cbn zeta in W.
    destruct W as [_ [-> Hk]]. exists d. split; [reflexivity | exact Hk].
Qed.

Lemma zip_last_entry_witness :
  let run := Downloader.extract_zip [Normal "out"]
               [MoreExamples.docs_dir; MoreExamples.docs_a] Examples.empty in
  run = (Ok tt, snd run) /\
  (if Str.ends_with "/" "docs/a.txt"
   then lookup (key (join [Normal "out"] (Downloader.mangled_name "docs/a.txt")))
          (fs (snd run)) = Some NDir
   else exists d, Ok "A" = Ok d /\
        lookup (key (join [Normal "out"] (Downloader.mangled_name "docs/a.txt")))
          (fs (snd run)) = Some (NFile d)).
Proof.
  intros run.
  assert (H : run = (Ok tt, snd run)) by (vm_compute; reflexivity).
  split; [exact H|].
  exact (zip_last_entry [Normal "out"] [MoreExamples.docs_dir] "docs/a.txt" (Ok "A")
           Examples.empty (snd run) H).
Defined.

(** X3: a zip entry that cannot be read (a corrupt entry, or a file
    entry whose data fails) makes the extraction fail, and the entries
    after it are never extracted. *)
Lemma zip_bad_entry_aborts dest es bad rest s :
  (exists e, bad = Err e) \/
  (exists name e, bad = Ok {| zname := name; zdata := Err e |} /\
                  Str.ends_with "/" name = false) ->
  Downloader.extract_zip dest (es ++ bad :: rest)%list s
    = Downloader.extract_zip dest (es ++ [bad])%list s /\
  exists e' s', Downloader.extract_zip dest (es ++ [bad])%list s = (Err e', s').
Proof.
  intros Hb. rewrite !extract_zip_app. split.
  - apply bind_ext. intros [] s1.
    destruct (zip_bad_step dest bad s1 Hb) as [e' [s' H]]. now rewrite !H.
  - unfold bind. destruct (Downloader.extract_zip dest es s) as [[[]|e] s1]; [|eauto].
    destruct (zip_bad_step dest bad s1 Hb) as [e' [s' H]]. rewrite H. eauto.
Qed.

Lemma zip_bad_entry_aborts_witness :
  let bad := Ok {| zname := "a.txt"; zdata := Err "invalid checksum" |} in
  Downloader.extract_zip [Normal "out"] [MoreExamples.docs_dir; bad; MoreExamples.docs_a]
    Examples.empty
  = Downloader.extract_zip [Normal "out"] [MoreExamples.docs_dir; bad] Examples.empty /\
  exists e' s',
    Downloader.extract_zip [Normal "out"] [MoreExamples.docs_dir; bad] Examples.empty
    = (Err e', s').
Proof.
  intros bad.
  apply (zip_bad_entry_aborts [Normal "out"] [MoreExamples.docs_dir] bad
           [MoreExamples.docs_a] Examples.empty).
  right. exists "a.txt", "invalid checksum". split; [reflexivity | vm_compute; reflexivity].
Defined.

(** X4: an entry that [tar::Archive::entries] fails to read (the
    [entry.map_err(..)?] of the loop, an [Err] of the entry list) stops
    the extraction with that error: the state is the one left by the
    entries before it, and no entry after it is extracted.  Errors while
    unpacking the data of an entry that was read are not of this kind. *)
Lemma tar_bad_entry_aborts dest es e rest s :
  Downloader.extract_tar dest (es ++ Err e :: rest)%list s
  = match Downloader.extract_tar dest es s with
    | (Ok _, s1) => (Err e, s1)
    | r => r
    end.
Proof.
  rewrite extract_tar_app. unfold bind.
  destruct (Downloader.extract_tar dest es s) as [[[]|e'] s1]; reflexivity.
Qed.

(** X5: after a successful tar extraction whose last entry has path [p]
    and a non-empty stripped path, the node at [dest] joined with the
    stripped path is a directory for a directory entry, and a file
    holding the entry's contents for a regular entry. *)
Lemma tar_last_entry dest es p kind s s' :
  Downloader.extract_tar dest (es ++ [Ok {| tpath := p; tkind := kind |}])%list s
    = (Ok tt, s') ->
  Downloader.strip_first (components p) <> [] ->
  let k := key (join dest (Downloader.strip_first (components p))) in
  (kind = TDir -> lookup k (fs s') = Some NDir) /\
  (forall d, kind = TRegular d -> lookup k (fs s') = Some (NFile d)).
Proof.
  rewrite extract_tar_app. unfold bind at 1.
  destruct (Downloader.extract_tar dest es s) as [[[]|e] s1]; [|discriminate].
  cbn [Downloader.extract_tar]. unfold bind at 1, lift at 1. cbv beta iota.
  cbn [tpath tkind]. intros H Hne.
  destruct (Downloader.strip_first (components p)) as [|c l] eqn:Es; [contradiction|].
  rewrite <- Es in H |- *. set (o := join dest (Downloader.strip_first (components p))) in *.
  cbv zeta. unfold bind at 1 in H.
  destruct (Downloader.extract_tar_entry o kind s1) as [[[]|e] s2] eqn:E; [|discriminate].
  cbn [Downloader.extract_tar ret] in H. inversion H; subst s2. clear H.
  split.
  - intros ->. cbn in E. now apply create_dir_all_ok in E.
  - intros d ->. cbn [Downloader.extract_tar_entry] in E. unfold bind at 1 in E.
    destruct ((match parent o with Some par => create_dir_all par | None => ret tt end) s1)
      as [[[]|e] s2]; [|discriminate].
    change (Downloader.unpack_file o d) with (write o d) in E.
    apply write_ok in E. cbn zeta in E. destruct E as [_ [-> Hk]]. exact Hk.
Qed.

Lemma tar_last_entry_witness :
  let run := Downloader.extract_tar [Normal "D"] Examples.tarball Examples.empty in
  run = (Ok tt, snd run) /\
  Downloader.strip_first (components "pkg-1.0/bin/tool") <> [] /\
  let k := key (join [Normal "D"] (Downloader.strip_first (components "pkg-1.0/bin/tool"))) in
  (TRegular "bin" = TDir -> lookup k (fs (snd run)) = Some NDir) /\
  (forall d, TRegular "bin" = TRegular d -> lookup k (fs (snd run)) = Some (NFile d)).
Proof.
  intros run.
  assert (H : run = (Ok tt, snd run)) by (vm_compute; reflexivity).
  assert (Hne : Downloader.strip_first (components "pkg-1.0/bin/tool") <> [])
    by (vm_compute; discriminate).
  split; [exact H|]. split; [exact Hne|].
  exact (tar_last_entry [Normal "D"] [Examples.pkg_dir] "pkg-1.0/bin/tool" (TRegular "bin")
           Examples.empty (snd run) H Hne).
Defined.

(** X6: only the first component of a tar entry path is stripped, and
    for an entry written [./p] that component is the [.]: the path
    extracted is [p] itself, so an archive listing [./pkg-1.0/...]
    keeps its [pkg-1.0] directory. *)
Lemma strip_first_dot_slash (p : string) :
  String.get 0 p <> Some "/"%char ->
  Downloader.strip_first (components ("./" ++ p)) = key (components p).
Proof.
  intros Hp. destruct (split_cons Str.slash p) as [f [r Hs]].
  unfold components. cbn [String.append].
  change (Str.split Str.slash (String "." (String "/" p)))
    with (match Str.split Str.slash (String "/" p) with
          | [] => [String "." EmptyString]
          | p0 :: ps => if Ascii.eqb "." Str.slash then EmptyString :: p0 :: ps
                        else String "." p0 :: ps end).
  change (Str.split Str.slash (String "/" p))
    with (match Str.split Str.slash p with
          | [] => [String "/" EmptyString]
          | p0 :: ps => if Ascii.eqb "/" Str.slash then EmptyString :: p0 :: ps
                        else String "/" p0 :: ps end).
  rewrite Hs. cbn -[flat_map body_component key].
  destruct p as [|c p'].
  - cbn in Hs. injection Hs as <- <-. reflexivity.
  - assert (Hc : Ascii.eqb c Str.slash = false).
    { apply Ascii.eqb_neq. intros ->. apply Hp. reflexivity. }
    rewrite Hc. destruct (string_dec f ".") as [->|Hf].
    + change (flat_map body_component r = key (flat_map body_component r)).
      symmetry. apply key_body.
    + symmetry.
      change (body_component f ++ flat_map body_component r)%list
        with (flat_map body_component (f :: r)).
      apply key_body.
Qed.

Lemma strip_first_dot_slash_witness :
  String.get 0 "pkg-1.0/bin/tool" <> Some "/"%char /\
  Downloader.strip_first (components ("./" ++ "pkg-1.0/bin/tool"))
  = key (components "pkg-1.0/bin/tool").
Proof.
  assert (H : String.get 0 "pkg-1.0/bin/tool" <> Some "/"%char) by (vm_compute; discriminate).
  split; [exact H | exact (strip_first_dot_slash _ H)].
Defined.

(** X7: a raw download that succeeds has read the whole response body:
    the response to its request streamed without a failing chunk, and
    the file [dest/<last URL segment>] holds exactly that body. *)
Lemma download_raw_ok w d url dest s s' :
  Downloader.download_raw w d url dest s = (Ok tt, s') ->
  exists resp body,
    send w (nreq s) url = Ok resp /\ Downloader.collect (chunks resp) = Ok body /\
    lookup (key (join (components dest) (components (Str.last_segment url)))) (fs s')
      = Some (NFile body).
Proof.
  unfold Downloader.download_raw, Downloader.http_get.
  set (dp := join (components dest) (components (Str.last_segment url))).
  cbv beta iota zeta delta [bind ret fail lift negb].
  destruct (create_dir_all (components dest) s) as [[[]|e] s1] eqn:C; [|discriminate].
  apply create_dir_all_frame in C. destruct C as [Hn _].
  destruct (Downloader.build_client w d); [|discriminate].
  rewrite Hn. destruct (send w (nreq s) url) as [resp|e]; [|discriminate].
  destruct (is_success (status resp)); [|discriminate].
  destruct (file_create dp _) as [[[]|e] s3] eqn:F; [|discriminate].
  apply file_create_ok in F. destruct F as [Hi ->]. intros H.
  pose proof (write_chunks_result _ _ _ _ _ H) as Hr.
  destruct (Downloader.collect (chunks resp)) as [body|e] eqn:Hc; [|discriminate].
  exists resp, body. split; [reflexivity|]. split; [exact Hc|].
  apply write_chunks_file with (pre := EmptyString) in H; [|apply lookup_set_eq, Hi].
  destruct H as [H _]. now destruct (H body Hc).
Qed.

Lemma download_raw_ok_witness :
  let run := Downloader.download_raw (Examples.online []) (Downloader.new "o/r")
               "https://github.com/o/r/releases/download/v1/tool" "out" Examples.empty in
  run = (Ok tt, snd run) /\
  exists resp body,
    send (Examples.online []) 0 "https://github.com/o/r/releases/download/v1/tool" = Ok resp /\
    Downloader.collect (chunks resp) = Ok body /\
    lookup (key (join (components "out")
                 (components (Str.last_segment
                                "https://github.com/o/r/releases/download/v1/tool"))))
      (fs (snd run)) = Some (NFile body).
Proof.
  intros run.
  assert (H : run = (Ok tt, snd run)) by (vm_compute; reflexivity).
  split; [exact H | exact (download_raw_ok _ _ _ _ _ _ H)].
Defined.

(** X8: when the target [dest/f] is absent or a regular file and the
    body stream of a raw download fails after the chunks [l] (whose
    writes succeed: [write_all] has no failure here), the download fails
    with the stream's error and leaves [dest/f] holding the chunks
    received so far. *)
Lemma download_raw_interrupted w d url dest f s s1 resp l e rest :
  create_dir_all (components dest) s = (Ok tt, s1) ->
  components (Str.last_segment url) = [Normal f] ->
  (lookup (key (components dest) ++ [Normal f])%list (fs s) = None \/
   exists c, lookup (key (components dest) ++ [Normal f])%list (fs s) = Some (NFile c)) ->
  Downloader.build_client w d = Ok tt ->
  send w (nreq s) url = Ok resp -> is_success (status resp) = true ->
  chunks resp = (map Ok l ++ Err e :: rest)%list ->
  exists s', Downloader.download_raw w d url dest s = (Err e, s') /\
    lookup (key (components dest) ++ [Normal f])%list (fs s')
      = Some (NFile (String.concat "" l)).
Proof.
  intros C Hf Hl0 Hb Hs Hok Hch.
  assert (Hl : lookup (key (components dest) ++ [Normal f])%list (fs s) <> Some NDir)
    by (destruct Hl0 as [Hn0|[c0 Hn0]]; rewrite Hn0; discriminate).
  unfold Downloader.download_raw, Downloader.http_get.
  rewrite Hf. cbv beta iota zeta delta [bind ret fail lift negb].
  rewrite C. pose proof (create_dir_all_ok _ _ _ C) as Hd.
  apply create_dir_all_frame in C. destruct C as [Hn Hfr].
  rewrite Hb, Hn, Hs, Hok. cbv beta iota.
  set (kd := key (components dest)) in *.
  assert (Hk : key (join (components dest) [Normal f]) = (kd ++ [Normal f])%list)
    by (cbn [join]; now rewrite key_app).
  assert (Hl1 : lookup (key (join (components dest) [Normal f])) (fs s1) <> Some NDir).
  { rewrite Hk, Hfr; [exact Hl|]. apply is_prefix_longer. rewrite length_app. cbn. lia. }
  rewrite file_create_succeeds; cbn [fs log nreq].
  4:{ rewrite Hk, removelast_last. exact Hd. }
  3:{ exact Hl1. }
  2:{ rewrite Hk. destruct kd; discriminate. }
  destruct (Downloader.write_chunks _ (chunks resp) _) as [r s'] eqn:W.
  exists s'. apply write_chunks_file with (pre := EmptyString) in W.
  - destruct W as [_ W]. destruct (W l e rest Hch) as [-> Hw]. rewrite Hk in Hw. now split.
  - apply lookup_set_eq. rewrite Hk. apply implicit_dir_snoc.
Qed.

Lemma download_raw_interrupted_witness :
  create_dir_all (components "out") Examples.empty
    = (Ok tt, snd (create_dir_all (components "out") Examples.empty)) /\
  exists s',
    Downloader.download_raw MoreExamples.interrupted (Downloader.new "o/r")
      "https://github.com/o/r/releases/download/v1/tool" "out" Examples.empty
    = (Err "connection reset", s') /\
    lookup [Normal "out"; Normal "tool"] (fs s') = Some (NFile "ab").
Proof.
  assert (C : create_dir_all (components "out") Examples.empty
    = (Ok tt, snd (create_dir_all (components "out") Examples.empty)))
    by (vm_compute; reflexivity).
  assert (Hn : lookup (key (components "out") ++ [Normal "tool"])%list (fs Examples.empty)
                = None) by (vm_compute; reflexivity).
  split; [exact C|].
  exact (download_raw_interrupted MoreExamples.interrupted (Downloader.new "o/r")
           "https://github.com/o/r/releases/download/v1/tool" "out" "tool" Examples.empty
           _ {| status := 200%Z; chunks := [Ok "ab"; Err "connection reset"; Ok "c"] |}
           ["ab"] "connection reset" [Ok "c"] C
           ltac:(vm_compute; reflexivity) (or_introl Hn)
           ltac:(vm_compute; reflexivity) ltac:(vm_compute; reflexivity)
           ltac:(vm_compute; reflexivity) ltac:(vm_compute; reflexivity)).
Defined.

(** X9: [latest_version] stops at the first attempt that succeeds: if
    the first [k] attempts fail and attempt [k] returns [v], with [k]
    below the retry count, it returns [v] after [k+1] API requests and
    [k] sleeps, without touching the filesystem. *)
Lemma latest_version_first_success w d k v s :
  Downloader.build_client w d = Ok tt ->
  k < Downloader.retry_count d ->
  (forall i, i < k -> exists e,
     fst (Downloader.get_latest_version w d (mkSt (fs s) (log s) (nreq s + i))) = Err e) ->
  fst (Downloader.get_latest_version w d (mkSt (fs s) (log s) (nreq s + k))) = Ok v ->
  Downloader.latest_version w d s
  = (Ok v, mkSt (fs s)
              (EvApi (Downloader.api_url d)
                 :: concat (repeat [EvSleep (Downloader.retry_delay d);
                                    EvApi (Downloader.api_url d)] k) ++ log s)%list
              (nreq s + S k)).
Proof.
  intros Hb Hk Hf Hv. unfold Downloader.latest_version.
  apply retry_first_success; assumption.
Qed.

Lemma latest_version_first_success_witness :
  Downloader.latest_version (MoreExamples.flaky 2) (Downloader.new "o/r") Examples.empty
  = (Ok "v2", mkSt []
       (EvApi (Downloader.api_url (Downloader.new "o/r"))
          :: concat (repeat [EvSleep 3; EvApi (Downloader.api_url (Downloader.new "o/r"))] 2)
          ++ [])%list 3).
Proof.
  apply (latest_version_first_success (MoreExamples.flaky 2) (Downloader.new "o/r") 2 "v2"
           Examples.empty).
  - vm_compute. reflexivity.
  - vm_compute. lia.
  - intros i Hi. destruct i as [|[|i]]; [| |lia]; eexists; vm_compute; reflexivity.
  - vm_compute. reflexivity.
Defined.

(** X10: [latest_version] never touches the filesystem and makes at
    most [retry_count] requests. *)
Lemma latest_version_request_bound w d s r s' :
  Downloader.latest_version w d s = (r, s') ->
  fs s' = fs s /\ nreq s' <= nreq s + Downloader.retry_count d.
Proof.
  intros H. split; [exact (proj1 (latest_version_frame _ _ _ _ _ H))|].
  exact (retry_nreq _ _ _ _ _ _ _ H).
Qed.

Lemma latest_version_request_bound_witness :
  let run := Downloader.latest_version Examples.offline (Downloader.new "o/r") Examples.empty in
  run = (fst run, snd run) /\
  fs (snd run) = fs Examples.empty /\
  nreq (snd run) <= nreq Examples.empty + Downloader.retry_count (Downloader.new "o/r").
Proof.
  intros run. assert (H : run = (fst run, snd run)) by (vm_compute; reflexivity).
  split; [exact H | exact (latest_version_request_bound _ _ _ _ _ H)].
Defined.

(** X11: with the retry count set to 0, installing the latest release
    fails at once with [unable to fetch latest version: ], before any
    request and without touching the filesystem. *)
Lemma api_no_retries w a r f s :
  Api.install w (Api.latest (Api.repo (Api.set_retry_count a 0) r)) f s
  = (Err "unable to fetch latest version: ", s).
Proof. reflexivity. Qed.

(** X12: an initial install with an empty version records, in the
    version file, the tag of a second latest-version lookup made after
    the download, not of the lookup that chose the download URL. *)
Lemma initial_install_empty_version w i a s s' :
  Install.initial_install_asset w i a "" s = (Ok tt, s') ->
  exists s1 s2 v,
    Downloader.download_asset w (Install.downloader i) a "" (Install.install_path i) s
      = (Ok tt, s1) /\
    Downloader.latest_version w (Install.downloader i) s1 = (Ok v, s2) /\
    lookup (key (Install.version_file_path i)) (fs s')
      = Some (NFile (Json.to_string (VersionInfo.mk v (Install.repo i)))).
Proof.
  unfold Install.initial_install_asset, map_err.
  cbv beta iota delta [bind].
  destruct (Downloader.download_asset w _ a "" _ s) as [[[]|e] s1] eqn:D; [|discriminate].
  destruct (string_dec "" "") as [_|C]; [|contradiction].
  destruct (Downloader.latest_version w (Install.downloader i) s1) as [[v|e] s2] eqn:L;
    [|discriminate].
  intros H. apply create_version_file_ok in H. cbn zeta in H.
  destruct H as [_ [_ [_ [_ [_ [_ [Hk _]]]]]]].
  exists s1, s2, v. split; [first [exact D | reflexivity]|].
  split; [first [exact L | reflexivity] | exact Hk].
Qed.

Lemma initial_install_empty_version_witness :
  let run := Install.initial_install_asset (Examples.online Examples.tarball) Examples.i_or
               "pkg-1.0.tar.gz" "" Examples.empty in
  run = (Ok tt, snd run) /\
  exists s1 s2 v,
    Downloader.download_asset (Examples.online Examples.tarball)
      (Install.downloader Examples.i_or) "pkg-1.0.tar.gz" "" (Install.install_path Examples.i_or)
      Examples.empty = (Ok tt, s1) /\
    Downloader.latest_version (Examples.online Examples.tarball)
      (Install.downloader Examples.i_or) s1 = (Ok v, s2) /\
    lookup (key (Install.version_file_path Examples.i_or)) (fs (snd run))
      = Some (NFile (Json.to_string (VersionInfo.mk v (Install.repo Examples.i_or)))).
Proof.
  intros run. assert (H : run = (Ok tt, snd run)) by (vm_compute; reflexivity).
  split; [exact H | exact (initial_install_empty_version _ _ _ _ _ H)].
Defined.

(** X13: listing the assets of the latest release makes one API
    request at most, with no retry and no sleep, and never touches the
    filesystem. *)
Lemma get_latest_release_assets_one_request w x d s r s' :
  Release.get_latest_release_assets w x d s = (r, s') ->
  fs s' = fs s /\ nreq s' <= S (nreq s) /\
  (log s' = log s \/ log s' = EvApi (Downloader.api_url d) :: log s).
Proof. apply release_assets_frame. Qed.

Lemma get_latest_release_assets_one_request_witness :
  let run := Release.get_latest_release_assets (Examples.online []) MoreExamples.libs
               (Downloader.new "o/r") Examples.empty in
  run = (fst run, snd run) /\
  fs (snd run) = fs Examples.empty /\ nreq (snd run) <= S (nreq Examples.empty) /\
  (log (snd run) = log Examples.empty \/
   log (snd run) = EvApi (Downloader.api_url (Downloader.new "o/r")) :: log Examples.empty).
Proof.
  intros run. assert (H : run = (fst run, snd run)) by (vm_compute; reflexivity).
  split; [exact H | exact (get_latest_release_assets_one_request _ _ _ _ _ _ H)].
Defined.

(** X14: with a pattern that matches no asset name,
    [download_latest_asset] fails without downloading anything: the
    filesystem is unchanged and at most one request was made. *)
Lemma download_latest_asset_no_match w x d pattern dest re s r s' :
  regex_new x pattern = Ok re ->
  (forall name, re name = false) ->
  Release.download_latest_asset w x d pattern dest s = (r, s') ->
  (exists e, r = Err e) /\ fs s' = fs s /\ nreq s' <= S (nreq s).
Proof.
  intros Hre Hn. unfold Release.download_latest_asset.
  cbv beta iota delta [bind lift]. rewrite Hre.
  destruct (Release.get_latest_release_assets w x d s) as [[names|e] s1] eqn:E.
  - assert (Hf : find re names = None).
    { clear E. induction names as [|n names IH]; [reflexivity|]. cbn. rewrite Hn. exact IH. }
    rewrite Hf. unfold fail. intros H. inversion H; subst.
    apply release_assets_frame in E. destruct E as [Hfs [Hq _]].
    split; [eauto|]. split; [exact Hfs | exact Hq].
  - intros H. inversion H; subst.
    apply release_assets_frame in E. destruct E as [Hfs [Hq _]].
    split; [eauto|]. split; [exact Hfs | exact Hq].
Qed.

Lemma download_latest_asset_no_match_witness :
  let run := Release.download_latest_asset (Examples.online []) MoreExamples.libs
               (Downloader.new "o/r") "a^" "out" Examples.empty in
  run = (fst run, snd run) /\
  (exists e, fst run = Err e) /\ fs (snd run) = fs Examples.empty /\
  nreq (snd run) <= S (nreq Examples.empty).
Proof.
  intros run. assert (H : run = (fst run, snd run)) by (vm_compute; reflexivity).
  split; [exact H|].
  exact (download_latest_asset_no_match (Examples.online []) MoreExamples.libs
           (Downloader.new "o/r") "a^" "out" (fun _ => false) _ _ _
           ltac:(vm_compute; reflexivity) (fun _ => eq_refl) H).
Defined.

(** X15: installing a pinned version through the builder API does
    nothing when the install directory already has a version file,
    whatever that file holds and whatever the asset name. *)
Lemma api_pinned_installed w a r v f node s :
  lookup (key (Install.version_file_path (Install.new r (Api.install_dir a)))) (fs s)
    = Some node ->
  Api.install w (Api.version (Api.repo a r) v) f s = (Ok tt, s).
Proof.
  intros Hl. unfold Api.install.
  cbn [Api.is_latest Api.version Api.vversion Api.vapi Api.vrepo Api.repo Api.rapi Api.rrepo].
  unfold bind at 1, ret at 1. apply no_upgrade_existing with (node := node). exact Hl.
Qed.

Lemma api_pinned_installed_witness :
  let s := Examples.with_state Examples.i_or Examples.v2_or in
  lookup (key (Install.version_file_path (Install.new "o/r" (Api.install_dir MoreExamples.api_out))))
    (fs s) = Some (NFile (Json.to_string Examples.v2_or)) /\
  Api.install Examples.offline (Api.version (Api.repo MoreExamples.api_out "o/r") "v1")
    (fun v => "pkg-" ++ v ++ ".tar.gz") s = (Ok tt, s).
Proof.
  intros s.
  assert (H : lookup (key (Install.version_file_path
                             (Install.new "o/r" (Api.install_dir MoreExamples.api_out))))
                (fs s) = Some (NFile (Json.to_string Examples.v2_or)))
    by (vm_compute; reflexivity).
  split; [exact H | exact (api_pinned_installed _ _ _ _ _ _ _ H)].
Defined.

(** X16: when resolving the latest version fails, installing the latest
    release through the builder API returns that error as it is and
    leaves the filesystem unchanged. *)
Lemma api_latest_failure w a r f e s s1 :
  Downloader.latest_version w
    (Downloader.with_config r (Api.retry_count a) (Api.retry_delay a) (Api.proxy a)) s
    = (Err e, s1) ->
  Api.install w (Api.latest (Api.repo a r)) f s = (Err e, s1) /\ fs s1 = fs s.
Proof.
  intros H. split.
  - unfold Api.install.
    cbn [Api.is_latest Api.latest Api.vapi Api.vrepo Api.repo Api.rapi Api.rrepo].
    unfold bind at 1. rewrite H. reflexivity.
  - exact (proj1 (latest_version_frame _ _ _ _ _ H)).
Qed.

Lemma api_latest_failure_witness :
  let d := Downloader.with_config "o/r" 3 3 None in
  let run := Downloader.latest_version Examples.offline d Examples.empty in
  run = (Err "unable to fetch latest version: error sending request for url", snd run) /\
  Api.install Examples.offline (Api.latest (Api.repo MoreExamples.api_out "o/r"))
    (fun v => "pkg-" ++ v ++ ".tar.gz") Examples.empty
  = (Err "unable to fetch latest version: error sending request for url", snd run) /\
  fs (snd run) = fs Examples.empty.
Proof.
  intros d run.
  assert (H : run = (Err "unable to fetch latest version: error sending request for url",
                     snd run)) by (vm_compute; reflexivity).
  split; [exact H | exact (api_latest_failure Examples.offline MoreExamples.api_out "o/r" _ _ _ _ H)].
Defined.

(** X17: on an install directory without a version file, a successful
    install through the builder API records the version it installed:
    the pinned version, or the tag of the latest-version lookup that was
    also given to the asset name function, when it is not empty. *)
Lemma api_fresh_install_records w a r f s s' :
  let k := key (Install.version_file_path (Install.new r (Api.install_dir a))) in
  let d := Downloader.with_config r (Api.retry_count a) (Api.retry_delay a) (Api.proxy a) in
  lookup k (fs s) = None ->
  (forall v, v <> "" ->
     Api.install w (Api.version (Api.repo a r) v) f s = (Ok tt, s') ->
     Api.get_installed_version (Api.repo a r) s' = (Ok (VersionInfo.mk v r), s')) /\
  (forall v s1, v <> "" ->
     Downloader.latest_version w d s = (Ok v, s1) ->
     Api.install w (Api.latest (Api.repo a r)) f s = (Ok tt, s') ->
     Api.get_installed_version (Api.repo a r) s' = (Ok (VersionInfo.mk v r), s')).
Proof.
  intros k d Hk. split.
  - intros v Hv. unfold Api.install.
    cbn [Api.is_latest Api.version Api.vversion Api.vapi Api.vrepo Api.repo Api.rapi Api.rrepo].
    cbv beta iota delta [bind ret]. unf. unfold exists_.
    change (lookup (key (Install.version_file_path _)) (fs s)) with (lookup k (fs s)).
    rewrite Hk. cbv beta iota.
    intros H. apply initial_install_records in H; [exact H | exact Hv].
  - intros v s1 Hv Hl. unfold Api.install.
    cbn [Api.is_latest Api.latest Api.vapi Api.vrepo Api.repo Api.rapi Api.rrepo].
    cbv beta iota delta [bind]. fold d. rewrite Hl. unf. unfold exists_.
    rewrite (proj1 (latest_version_frame _ _ _ _ _ Hl)).
    change (lookup (key (Install.version_file_path _)) (fs s)) with (lookup k (fs s)).
    rewrite Hk. cbv beta iota.
    intros H. apply initial_install_records in H; [exact H | exact Hv].
Qed.

Lemma api_fresh_install_records_witness :
  let w := Examples.online Examples.tarball in
  let a := MoreExamples.api_out in
  let f := fun v : string => "pkg-" ++ v ++ ".tar.gz" in
  let pinned := Api.install w (Api.version (Api.repo a "o/r") "v1") f Examples.empty in
  let latest := Api.install w (Api.latest (Api.repo a "o/r")) f Examples.empty in
  pinned = (Ok tt, snd pinned) /\
  Api.get_installed_version (Api.repo a "o/r") (snd pinned)
    = (Ok (VersionInfo.mk "v1" "o/r"), snd pinned) /\
  latest = (Ok tt, snd latest) /\
  Api.get_installed_version (Api.repo a "o/r") (snd latest)
    = (Ok (VersionInfo.mk "v2" "o/r"), snd latest).
Proof.
  intros w a f pinned latest.
  assert (Hk : lookup (key (Install.version_file_path (Install.new "o/r" (Api.install_dir a))))
                 (fs Examples.empty) = None) by (vm_compute; reflexivity).
  assert (Hp : pinned = (Ok tt, snd pinned)) by (vm_compute; reflexivity).
  assert (Hl : latest = (Ok tt, snd latest)) by (vm_compute; reflexivity).
  assert (Hv : Downloader.latest_version w
                 (Downloader.with_config "o/r" (Api.retry_count a) (Api.retry_delay a)
                    (Api.proxy a)) Examples.empty
               = (Ok "v2", snd (Downloader.latest_version w
                 (Downloader.with_config "o/r" (Api.retry_count a) (Api.retry_delay a)
                    (Api.proxy a)) Examples.empty))) by (vm_compute; reflexivity).
  split; [exact Hp|]. split.
  - exact (proj1 (api_fresh_install_records w a "o/r" f Examples.empty (snd pinned) Hk)
             "v1" ltac:(discriminate) Hp).
  - split; [exact Hl|].
    exact (proj2 (api_fresh_install_records w a "o/r" f Examples.empty (snd latest) Hk)
             "v2" _ ltac:(discriminate) Hv Hl).
Defined.

(** X18: reading the installed version never changes the state; when
    the install directory is a directory, named without [..], on a
    filesystem without symlinks, and it holds no version file, the read
    fails with [error reading version info file: ] and the not-found
    error. *)
Lemma installed_version_read_only rp s r s' :
  Api.get_installed_version rp s = (r, s') ->
  s' = s /\
  (let dir := key (components (Api.install_dir (Api.rapi rp))) in
   lookup dir (fs s) = Some NDir ->
   ~ In ParentDir dir ->
   (forall q t, lookup q (fs s) <> Some (NLink t)) ->
   lookup (key (Install.version_file_path
                  (Install.new (Api.rrepo rp) (Api.install_dir (Api.rapi rp))))) (fs s) = None ->
   r = Err ("error reading version info file: " ++ ENOENT)).
Proof.
  unfold Api.get_installed_version, Install.get_installed_version, read_to_string.
  cbv beta iota zeta delta [bind ret fail lift read_fs map_err].
  destruct (lookup (key (Install.version_file_path _)) (fs s)) as [[|data|t]|].
  - intros H. inversion H. split; [reflexivity | intros _ _ _ E; discriminate].
  - destruct (Json.from_str data); intros H; inversion H;
      (split; [reflexivity | intros _ _ _ E; discriminate]).
  - intros H. inversion H. split; [reflexivity | intros _ _ _ E; discriminate].
  - intros H. inversion H. split; [reflexivity | intros _ _ _ _; reflexivity].
Qed.

Lemma installed_version_read_only_witness :
  let rp := Api.repo MoreExamples.api_out "o/r" in
  let s := mkSt [([Normal "out"], NDir)] [] 0 in
  let run := Api.get_installed_version rp s in
  run = (fst run, snd run) /\
  lookup (key (components (Api.install_dir (Api.rapi rp)))) (fs s) = Some NDir /\
  lookup (key (Install.version_file_path
                 (Install.new (Api.rrepo rp) (Api.install_dir (Api.rapi rp)))))
    (fs s) = None /\
  fst run = Err ("error reading version info file: " ++ ENOENT).
Proof.
  intros rp s run.
  assert (H : run = (fst run, snd run)) by (vm_compute; reflexivity).
  assert (Hd : lookup (key (components (Api.install_dir (Api.rapi rp)))) (fs s) = Some NDir)
    by (vm_compute; reflexivity).
  assert (Hp : ~ In ParentDir (key (components (Api.install_dir (Api.rapi rp)))))
    by (vm_compute; intros [E|[]]; discriminate).
  assert (Hl : forall q t, lookup q (fs s) <> Some (NLink t)).
  { intros q t E. unfold s, lookup in E. cbn [fs find fst] in E.
    destruct (implicit_dir q); [discriminate|].
    destruct (path_eq_dec [Normal "out"] q); discriminate. }
  assert (Hn : lookup (key (Install.version_file_path
                 (Install.new (Api.rrepo rp) (Api.install_dir (Api.rapi rp)))))
                 (fs s) = None) by (vm_compute; reflexivity).
  split; [exact H|]. split; [exact Hd|]. split; [exact Hn|].
  exact (proj2 (installed_version_read_only rp _ _ _ H) Hd Hp Hl Hn).
Defined.

(** X19: a symlink entry of a tar archive never makes the extraction
    fail: a missing link name, or a link that cannot be created, is
    skipped, and when the target path already exists nothing changes. *)
Lemma tar_symlink_never_fails outpath lk s :
  fst (Downloader.extract_tar_entry outpath (TSymlink lk) s) = Ok tt /\
  (lookup (key outpath) (fs s) <> None ->
   snd (Downloader.extract_tar_entry outpath (TSymlink lk) s) = s).
Proof.
  destruct lk as [[link|]|e]; cbn; [|split; reflexivity | split; reflexivity].
  unfold symlink. cbv beta iota zeta delta [bind ret fail lift read_fs mutate attempt].
  destruct (lookup (key outpath) (fs s)) as [n|].
  - split; reflexivity.
  - destruct (parent_is_dir (key outpath) (fs s)); split; try reflexivity; now intros [].
Qed.

Lemma tar_symlink_never_fails_witness :
  let s := mkSt [([Normal "D"], NDir); ([Normal "D"; Normal "lib"], NFile "old")] [] 0 in
  lookup (key [Normal "D"; Normal "lib"]) (fs s) <> None /\
  fst (Downloader.extract_tar_entry [Normal "D"; Normal "lib"] (TSymlink (Ok (Some "lib.so.1"))) s)
    = Ok tt /\
  snd (Downloader.extract_tar_entry [Normal "D"; Normal "lib"] (TSymlink (Ok (Some "lib.so.1"))) s)
    = s.
Proof.
  intros s.
  assert (H : lookup (key [Normal "D"; Normal "lib"]) (fs s) <> None)
    by (vm_compute; discriminate).
  destruct (tar_symlink_never_fails [Normal "D"; Normal "lib"] (Ok (Some "lib.so.1")) s)
    as [H1 H2].
  split; [exact H|]. split; [exact H1 | exact (H2 H)].
Defined.

End Extras.
